(** * homebridge-open-sesame: the Sesame3 accessory

    A shallow embedding of [src/accessories/Sesame3.ts] (the version that
    keeps its state in [accessory.context] and records an Eve history),
    followed by the properties of the state reconciler ([setLockStatus]),
    the command dispatcher ([setLockTargetState]) and the history recorder
    ([setupHistoryService], [updateHistory]).

    The accessory is modelled as a record [World] that is threaded through a
    small state-and-exception monad.  Everything the class does to the
    outside (characteristic updates, log lines, client calls, timers, the
    mutex) is appended to [trace], so that "nothing observable happened"
    is the statement that the world, trace included, is unchanged. *)

(** The second half of the file covers the rest of the class (the
    read handlers, the ['change'] listener, the constructor on a restart,
    invariants over the accessory's lifetime), the two earlier versions of
    the class where they behave differently, and the platform that creates
    the accessories. *)

From Stdlib Require Import ZArith List String Bool Lia QArith.
Import ListNotations.
Open Scope Z_scope.

(* ================================================================== *)
(** ** JavaScript values held by [accessory.context] and characteristics *)

Module JS.

(** [accessory.context] is typed [any]; the fields the class stores are
    numbers, booleans or [undefined].  Numbers are integers in every use
    the class makes of them, and are modelled by [Z]; [JNaN] is what
    arithmetic on [undefined] yields. *)
Inductive JsVal : Type :=
| JUndefined
| JNaN
| JNumber (z : Z)
| JBool (b : bool).

(** [a === b] *)
Definition strict_eq (a b : JsVal) : bool :=
  match a, b with
  | JUndefined, JUndefined => true
  | JNumber x, JNumber y => x =? y
  | JBool x, JBool y => Bool.eqb x y
  | _, _ => false
  end.

Arguments strict_eq !a !b : simpl nomatch.

(** [a !== b] *)
Definition strict_neq (a b : JsVal) : bool := negb (strict_eq a b).

(** ToBoolean, as used by [if (v)] and [v ? _ : _] *)
Definition truthy (v : JsVal) : bool :=
  match v with
  | JUndefined => false
  | JNaN => false
  | JNumber z => negb (z =? 0)
  | JBool b => b
  end.

(** [a ?? b] *)
Definition nullish (a b : JsVal) : JsVal :=
  match a with
  | JUndefined => b
  | _ => a
  end.

(** ToNumber *)
Definition to_number (v : JsVal) : JsVal :=
  match v with
  | JUndefined => JNaN
  | JNaN => JNaN
  | JNumber z => JNumber z
  | JBool b => JNumber (if b then 1 else 0)
  end.

(** the value stored by [v++] *)
Definition incr (v : JsVal) : JsVal :=
  match to_number v with
  | JNumber z => JNumber (z + 1)
  | _ => JNaN
  end.

(** [a - b] *)
Definition sub (a b : JsVal) : JsVal :=
  match to_number a, to_number b with
  | JNumber x, JNumber y => JNumber (x - y)
  | _, _ => JNaN
  end.

(** [Math.max(0, v)] *)
Definition max0 (v : JsVal) : JsVal :=
  match to_number v with
  | JNumber z => JNumber (Z.max 0 z)
  | _ => JNaN
  end.

(** [Math.round(ms / 1000)] for an integer [ms]: the nearest integer, a
    tie going up. *)
Definition round_div1000 (ms : Z) : Z := (ms + 500) / 1000.

(** [Date.parse('01 Jan 2001 00:00:00 GMT')]: milliseconds from the Unix
    epoch to 2001, 31 years of which 8 are leap years. *)
Definition Date_parse_2001 : Z := (31 * 365 + 8) * 86400 * 1000.

End JS.
Import JS.

(* ================================================================== *)
(** ** Constants of the accessory framework (HAP) *)

Module HAP.

(** [Characteristic.LockCurrentState] *)
Definition UNSECURED : JsVal := JNumber 0.
Definition SECURED : JsVal := JNumber 1.
Definition JAMMED : JsVal := JNumber 2.
Definition UNKNOWN : JsVal := JNumber 3.

(** [Characteristic.ContactSensorState] *)
Definition CONTACT_DETECTED : JsVal := JNumber 0.
Definition CONTACT_NOT_DETECTED : JsVal := JNumber 1.

End HAP.

(* ================================================================== *)
(** ** Data model *)

(** [CHSesame2MechStatus] *)
Record MechStatus : Type := mkStatus {
  isInLockRange : bool;
  isInUnlockRange : bool;
  batteryPercentage : Z;
  isBatteryCritical : bool
}.

(** [Command] *)
Inductive Command : Type := lock | unlock.

(** Which implementation of [Client] the constructor picked. *)
Inductive ClientKind : Type := CandyClient | CognitoClient.

(** [accessory.context], the part of the accessory that is persisted *)
Record Context : Type := mkContext {
  lockState : JsVal;
  batteryLevel : JsVal;
  batteryCritical : JsVal;
  timesOpened : JsVal;
  lastReset : JsVal;
  lastActivation : JsVal
}.

(** The characteristics the class updates. *)
Inductive CharId : Type :=
| LockTargetState
| LockCurrentState
| BatteryLevel
| StatusLowBattery
| ContactSensorState
| TimesOpened
| LastActivation.

(** For each of them, the value the class last handed to it with
    [updateValue].  The framework validates what it is handed before it
    stores it (a boolean becomes 1 or 0, a number out of range is
    clamped); that is code of the framework, not of the class, and is not
    modelled: this record and the [EUpdateValue]s of the trace are about
    what the class handed over.  The one value the class gets back from
    the framework is the [oldValue] of a ['change'] event of
    ContactSensorState, to which it only ever hands 0 or 1, which the
    framework stores as they are. *)
Record Chars : Type := mkChars {
  cLockTargetState : JsVal;
  cLockCurrentState : JsVal;
  cBatteryLevel : JsVal;
  cStatusLowBattery : JsVal;
  cContactSensorState : JsVal;
  cTimesOpened : JsVal;
  cLastActivation : JsVal
}.

Definition charValue (c : CharId) (cs : Chars) : JsVal :=
  match c with
  | LockTargetState => cLockTargetState cs
  | LockCurrentState => cLockCurrentState cs
  | BatteryLevel => cBatteryLevel cs
  | StatusLowBattery => cStatusLowBattery cs
  | ContactSensorState => cContactSensorState cs
  | TimesOpened => cTimesOpened cs
  | LastActivation => cLastActivation cs
  end.

Definition setChar (c : CharId) (v : JsVal) (cs : Chars) : Chars :=
  match c with
  | LockTargetState =>
      mkChars v (cLockCurrentState cs) (cBatteryLevel cs) (cStatusLowBattery cs)
              (cContactSensorState cs) (cTimesOpened cs) (cLastActivation cs)
  | LockCurrentState =>
      mkChars (cLockTargetState cs) v (cBatteryLevel cs) (cStatusLowBattery cs)
              (cContactSensorState cs) (cTimesOpened cs) (cLastActivation cs)
  | BatteryLevel =>
      mkChars (cLockTargetState cs) (cLockCurrentState cs) v (cStatusLowBattery cs)
              (cContactSensorState cs) (cTimesOpened cs) (cLastActivation cs)
  | StatusLowBattery =>
      mkChars (cLockTargetState cs) (cLockCurrentState cs) (cBatteryLevel cs) v
              (cContactSensorState cs) (cTimesOpened cs) (cLastActivation cs)
  | ContactSensorState =>
      mkChars (cLockTargetState cs) (cLockCurrentState cs) (cBatteryLevel cs)
              (cStatusLowBattery cs) v (cTimesOpened cs) (cLastActivation cs)
  | TimesOpened =>
      mkChars (cLockTargetState cs) (cLockCurrentState cs) (cBatteryLevel cs)
              (cStatusLowBattery cs) (cContactSensorState cs) v (cLastActivation cs)
  | LastActivation =>
      mkChars (cLockTargetState cs) (cLockCurrentState cs) (cBatteryLevel cs)
              (cStatusLowBattery cs) (cContactSensorState cs) (cTimesOpened cs) v
  end.

(** An entry handed to the history service: [{time, status}] *)
Record HistoryEntry : Type := mkEntry {
  time : Z;
  status : JsVal
}.

(** The fakegato history object behind [#historyService]: the epoch it
    reports through [getInitialTime()] and the entries it was given. *)
Record Fakegato : Type := mkFakegato {
  initialTime : Z;
  entries : list HistoryEntry
}.

(** What is thrown and caught. *)
Inductive Thrown : Type :=
| ErrorObj (message : string)     (* [instanceof Error] *)
| NonError.                       (* anything else *)

Inductive LogLevel : Type := LInfo | LDebug | LError.

Inductive LogMsg : Type :=
| MsgUsingClient (k : ClientKind)
| MsgContextDump (history : option bool) (c : Context)
| MsgSendingRequest (deviceName : string) (cmd : Command)
| MsgErrorMessage (deviceName : string) (message : string)
| MsgThrown (e : Thrown)
| MsgCurrentState (logPrefix : string) (locked : bool)
| MsgResetTimesOpened
| MsgSetLastReset (reset : JsVal)
| MsgContactChange (oldValue newValue : JsVal).

(** Everything the class does to its collaborators. *)
Inductive Effect : Type :=
| EUpdateValue (c : CharId) (v : JsVal)
| ELog (l : LogLevel) (m : LogMsg)
| EAddEntry (e : HistoryEntry)
| EPostCmd (cmd : Command) (actor : string)
| ESleep (ms : Q)
| EGetMechStatus
| ESubscribe
| EClientShutdown
| ESetTimeout (ms : Z)
| EAcquire
| ERelease.

(** The accessory object at run time. *)
Record World : Type := mkWorld {
  context : Context;
  chars : Chars;
  hasSensor : bool;                    (* the ContactSensor service exists *)
  historyService : option Fakegato;    (* [#historyService], [null] at first *)
  client : ClientKind;                 (* [#client] *)
  timers : list Z;                     (* pending [setTimeout]s of [updateHistory] *)
  mutexLocked : bool;                  (* [#mutex] *)
  trace : list Effect                  (* oldest first *)
}.

(** [platform.config] and the [CHDevice] the accessory is built for *)
Record Config : Type := mkConfig {
  clientID : option string;
  configName : string;
  sesameName : option string;
  sesameUuid : string;
  sesameHistory : option bool
}.

(* ================================================================== *)
(** ** The monad the methods run in: state, trace and exceptions *)

Inductive Result (A : Type) : Type :=
| Ok (a : A)
| Throw (e : Thrown).
Arguments Ok {A} a.
Arguments Throw {A} e.

Definition M (A : Type) : Type := World -> Result A * World.

Definition ret {A : Type} (a : A) : M A := fun w => (Ok a, w).

Definition bind {A B : Type} (m : M A) (k : A -> M B) : M B :=
  fun w =>
    match m w with
    | (Ok a, w') => k a w'
    | (Throw e, w') => (Throw e, w')
    end.

Definition throw {A : Type} (e : Thrown) : M A := fun w => (Throw e, w).

(** [try { m } catch (error) { h error }] *)
Definition try_catch {A : Type} (m : M A) (h : Thrown -> M A) : M A :=
  fun w =>
    match m w with
    | (Ok a, w') => (Ok a, w')
    | (Throw e, w') => h e w'
    end.

(** [try { m } finally { f }], for an [f] that does not throw *)
Definition finally {A : Type} (m : M A) (f : World -> World) : M A :=
  fun w => let (r, w') := m w in (r, f w').

(** A step that cannot throw. *)
Definition lift (f : World -> World) : M unit := fun w => (Ok tt, f w).

(** The world an action leaves behind, and how it ended. *)
Definition exec {A : Type} (m : M A) (w : World) : World := snd (m w).
Definition outcome {A : Type} (m : M A) (w : World) : Result A := fst (m w).

Declare Scope js_scope.
Delimit Scope js_scope with js.
Notation "x <- m ;; k" := (bind m (fun x => k))
  (at level 100, m at next level, right associativity) : js_scope.
Notation "m ;; k" := (bind m (fun _ => k))
  (at level 100, right associativity) : js_scope.
Notation "'when' b 'then' m" := (if b then m else ret tt)
  (at level 100, b at next level, right associativity) : js_scope.
Open Scope js_scope.

(** *** Field updates *)

Definition with_context (c : Context) (w : World) : World :=
  mkWorld c (chars w) (hasSensor w) (historyService w) (client w)
          (timers w) (mutexLocked w) (trace w).
Definition with_chars (cs : Chars) (w : World) : World :=
  mkWorld (context w) cs (hasSensor w) (historyService w) (client w)
          (timers w) (mutexLocked w) (trace w).
Definition with_hasSensor (b : bool) (w : World) : World :=
  mkWorld (context w) (chars w) b (historyService w) (client w)
          (timers w) (mutexLocked w) (trace w).
Definition with_historyService (h : option Fakegato) (w : World) : World :=
  mkWorld (context w) (chars w) (hasSensor w) h (client w)
          (timers w) (mutexLocked w) (trace w).
Definition with_timers (ts : list Z) (w : World) : World :=
  mkWorld (context w) (chars w) (hasSensor w) (historyService w) (client w)
          ts (mutexLocked w) (trace w).
Definition with_mutexLocked (b : bool) (w : World) : World :=
  mkWorld (context w) (chars w) (hasSensor w) (historyService w) (client w)
          (timers w) b (trace w).
Definition with_trace (t : list Effect) (w : World) : World :=
  mkWorld (context w) (chars w) (hasSensor w) (historyService w) (client w)
          (timers w) (mutexLocked w) t.

Definition set_lockState (v : JsVal) (c : Context) : Context :=
  mkContext v (batteryLevel c) (batteryCritical c) (timesOpened c)
            (lastReset c) (lastActivation c).
Definition set_batteryLevel (v : JsVal) (c : Context) : Context :=
  mkContext (lockState c) v (batteryCritical c) (timesOpened c)
            (lastReset c) (lastActivation c).
Definition set_batteryCritical (v : JsVal) (c : Context) : Context :=
  mkContext (lockState c) (batteryLevel c) v (timesOpened c)
            (lastReset c) (lastActivation c).
Definition set_timesOpened (v : JsVal) (c : Context) : Context :=
  mkContext (lockState c) (batteryLevel c) (batteryCritical c) v
            (lastReset c) (lastActivation c).
Definition set_lastReset (v : JsVal) (c : Context) : Context :=
  mkContext (lockState c) (batteryLevel c) (batteryCritical c) (timesOpened c)
            v (lastActivation c).
Definition set_lastActivation (v : JsVal) (c : Context) : Context :=
  mkContext (lockState c) (batteryLevel c) (batteryCritical c) (timesOpened c)
            (lastReset c) v.

(** *** Primitive actions *)

Definition emit (e : Effect) : M unit :=
  lift (fun w => with_trace (trace w ++ [e]) w).

Definition log (l : LogLevel) (m : LogMsg) : M unit := emit (ELog l m).

Definition read_context : M Context := fun w => (Ok (context w), w).

(** [this.accessory.context.f = v], through one of the setters above *)
Definition assign (set : JsVal -> Context -> Context) (v : JsVal) : M unit :=
  lift (fun w => with_context (set v (context w)) w).

(** [characteristic.updateValue(v)] for a characteristic nobody listens
    to: [v] is recorded as the value last handed to the characteristic,
    and the hand-over is added to the trace. *)
Definition updateValue (c : CharId) (v : JsVal) : M unit :=
  lift (fun w => with_chars (setChar c v (chars w)) w) ;;
  emit (EUpdateValue c v).

(** [this.#historyService.m(...)]: a [TypeError] while the field is [null] *)
Definition TypeError_null : Thrown :=
  ErrorObj "Cannot read properties of null".

Definition the_historyService : M Fakegato :=
  fun w =>
    match historyService w with
    | Some fg => (Ok fg, w)
    | None => (Throw TypeError_null, w)
    end.

(** [this.#historyService.getInitialTime()] *)
Definition getInitialTime : M JsVal :=
  fg <- the_historyService ;; ret (JNumber (initialTime fg)).

(** [this.#historyService.addEntry(entry)] *)
Definition addEntry (e : HistoryEntry) : M unit :=
  fg <- the_historyService ;;
  lift (with_historyService
          (Some (mkFakegato (initialTime fg) (entries fg ++ [e])))) ;;
  emit (EAddEntry e).

(** [Math.round(new Date().valueOf() / 1000)], the clock reading [now]
    milliseconds *)
Definition seconds (now : Z) : Z := round_div1000 now.

(* ================================================================== *)
(** ** The methods of [Sesame3] *)

Section Sesame3.

Variable cfg : Config.

(** [this.sesame.name ?? this.sesame.uuid] *)
Definition deviceName : string :=
  match sesameName cfg with
  | Some n => n
  | None => sesameUuid cfg
  end.

(** *** Read handlers *)

Definition getBatteryLevel (w : World) : JsVal := batteryLevel (context w).

Definition getStatusLowBattery (w : World) : JsVal := batteryCritical (context w).

Definition getLockState (w : World) : JsVal := lockState (context w).

(** [onGet] of Eve's TimesOpened *)
Definition getTimesOpened (w : World) : JsVal := timesOpened (context w).

(** [onGet] of Eve's LastActivation *)
Definition getLastActivation : M JsVal :=
  c <- read_context ;;
  if truthy (lastActivation c)
  then t0 <- getInitialTime ;; ret (max0 (sub (lastActivation c) t0))
  else ret (JNumber 0).

(** [Math.round(Date.parse('01 Jan 2001 00:00:00 GMT') / 1000)] *)
Definition epochOffset : Z := round_div1000 Date_parse_2001.

(** [onGet] of Eve's ResetTotal:
    [context.lastReset ?? (getInitialTime() - epochOffset)], the right-hand
    side being evaluated only when the left one is [undefined]. *)
Definition getResetTotal : M JsVal :=
  c <- read_context ;;
  match lastReset c with
  | JUndefined => t0 <- getInitialTime ;; ret (sub t0 (JNumber epochOffset))
  | v => ret v
  end.

(** *** The contact sensor *)

(** [sensor?.updateCharacteristic(c, v)], with
    [sensor = accessory.getService(ContactSensor)]; [v] is not evaluated
    when there is no sensor. *)
Definition sensor_updateCharacteristic (c : CharId) (v : M JsVal) : M unit :=
  fun w =>
    if hasSensor w then (x <- v ;; updateValue c x) w else (Ok tt, w).

(** The listener of ['change'] on ContactSensorState ([setupHistoryService]). *)
Definition onContactChange (now : Z) (oldValue newValue : JsVal) : M unit :=
  when strict_neq newValue oldValue then
    log LDebug (MsgContactChange oldValue newValue) ;;
    let entry := mkEntry (seconds now) newValue in
    assign set_lastActivation (JNumber (time entry)) ;;
    sensor_updateCharacteristic LastActivation
      (c <- read_context ;; t0 <- getInitialTime ;;
       ret (max0 (sub (lastActivation c) t0))) ;;
    (when truthy (status entry) then
       c <- read_context ;;
       assign set_timesOpened (incr (timesOpened c)) ;;
       sensor_updateCharacteristic TimesOpened
         (c' <- read_context ;; ret (timesOpened c'))) ;;
    addEntry entry.

(** [updateValue] on ContactSensorState.  The framework stores the value
    and hands [{oldValue, newValue}] to the ['change'] listener; the
    listener exists once [setupHistoryService] has run, which is when
    [#historyService] is set. *)
Definition updateValue_ContactSensorState (now : Z) (v : JsVal) : M unit :=
  fun w =>
    let oldValue := cContactSensorState (chars w) in
    (updateValue ContactSensorState v ;;
     match historyService w with
     | Some _ => onContactChange now oldValue v
     | None => ret tt
     end) w.

Definition contactStateOf (ls : JsVal) : JsVal :=
  if strict_eq ls HAP.SECURED
  then HAP.CONTACT_DETECTED
  else HAP.CONTACT_NOT_DETECTED.

Definition updateContactSensorState (now : Z) : M unit :=
  fun w =>
    if hasSensor w
    then (c <- read_context ;;
          let state := contactStateOf (lockState c) in
          updateValue_ContactSensorState now state) w
    else (Ok tt, w).

(** *** The state reconciler *)

Definition setLockStatus (now : Z) (st : MechStatus) : M unit :=
  (* locked xor unlocked *)
  if Bool.eqb (isInLockRange st) (isInUnlockRange st) then ret tt
  else
    c <- read_context ;;
    let currentLockState := lockState c in
    let newLockState :=
      if isInLockRange st then HAP.SECURED else HAP.UNSECURED in
    if strict_eq newLockState currentLockState then ret tt
    else
      log LInfo (MsgCurrentState deviceName (truthy newLockState)) ;;
      assign set_lockState newLockState ;;
      assign set_batteryLevel (JNumber (batteryPercentage st)) ;;
      assign set_batteryCritical (JBool (isBatteryCritical st)) ;;
      (* Update lock service *)
      (fun w => updateValue LockTargetState (getLockState w) w) ;;
      (fun w => updateValue LockCurrentState (getLockState w) w) ;;
      (* Update battery service *)
      (fun w => updateValue BatteryLevel (getBatteryLevel w) w) ;;
      (fun w => updateValue StatusLowBattery (getStatusLowBattery w) w) ;;
      (* Update contact sensor state *)
      updateContactSensorState now.

(** [updateToLatestStatus] is [async]: it calls [getMechStatus()] at once
    and carries on when the client answers. *)
Definition updateToLatestStatus_call : M unit := emit EGetMechStatus.

Definition updateToLatestStatus_resume (now : Z) (st : option MechStatus)
  : M unit :=
  match st with
  | Some s => setLockStatus now s
  | None => ret tt
  end.

(** [subscribe]: the client is given a callback that applies each status. *)
Definition subscribe : M unit := emit ESubscribe.

(** *** The history recorder *)

Definition heartbeat_ms : Z := 10 * 60 * 1000.

Definition updateHistory (now : Z) : M unit :=
  c <- read_context ;;
  let state := contactStateOf (lockState c) in
  addEntry (mkEntry (seconds now) state) ;;
  lift (fun w => with_timers (timers w ++ [heartbeat_ms]) w) ;;
  emit (ESetTimeout heartbeat_ms).

(** [onSet] of Eve's ResetTotal *)
Definition resetTotal (reset : JsVal) : M unit :=
  assign set_timesOpened (JNumber 0) ;;
  assign set_lastReset reset ;;
  sensor_updateCharacteristic TimesOpened (ret (JNumber 0)) ;;
  log LDebug MsgResetTimesOpened ;;
  log LDebug (MsgSetLastReset reset).

(** [setupHistoryService], with [fg] the object [new fakegatoAPI(...)]
    returns.  It registers the read and write handlers above and the
    ['change'] listener, then starts the heartbeat; [updateHistory] has no
    [await] inside, so all of it runs before the constructor goes on. *)
Definition setupHistoryService (now : Z) (fg : Fakegato) : M unit :=
  lift (with_hasSensor true) ;;
  lift (with_historyService (Some fg)) ;;
  updateHistory now.

(** The handler of [APIEvent.SHUTDOWN] *)
Definition onShutdown : M unit := emit EClientShutdown.

(** A pending [setTimeout] of [updateHistory] comes due. *)
Definition fireTimer (now : Z) : M unit :=
  fun w =>
    match timers w with
    | [] => (Ok tt, w)
    | _ :: rest => (lift (with_timers rest) ;; updateHistory now) w
    end.

(** *** What the event loop may run while a method is suspended *)

Inductive Callback : Type :=
| CbPush (now : Z) (st : MechStatus)            (* the [subscribe] callback *)
| CbPolled (now : Z) (st : option MechStatus)   (* [getMechStatus()] answered *)
| CbTimer (now : Z)                             (* a heartbeat timer is due *)
| CbResetTotal (reset : JsVal)                  (* a write to ResetTotal *)
| CbShutdown.                                   (* [APIEvent.SHUTDOWN] *)

Definition callback (cb : Callback) : M unit :=
  match cb with
  | CbPush now st => setLockStatus now st
  | CbPolled now st => updateToLatestStatus_resume now st
  | CbTimer now => fireTimer now
  | CbResetTotal reset =>
      (* the handler is registered by [setupHistoryService] *)
      fun w =>
        match historyService w with
        | Some _ => resetTotal reset w
        | None => (Ok tt, w)
        end
  | CbShutdown => onShutdown
  end.

(** A callback runs on its own stack: what it throws does not reach the
    method that is suspended. *)
Definition run_callback (w : World) (cb : Callback) : World :=
  exec (callback cb) w.

Definition interleave (cbs : list Callback) : M unit :=
  lift (fun w => fold_left run_callback cbs w).

(** *** The command dispatcher *)

(** What the outside does during one call of [setLockTargetState]: how
    [postCmd] ends, and which callbacks run at the two [await]s. *)
Record DispatchEnv : Type := mkEnv {
  postResult : option Thrown;        (* [None]: the promise resolves *)
  whilePosting : list Callback;
  whileSleeping : list Callback
}.

(** [await this.#client.postCmd(cmd, actor)] *)
Definition postCmd (env : DispatchEnv) (cmd : Command) (actor : string)
  : M unit :=
  emit (EPostCmd cmd actor) ;;
  interleave (whilePosting env) ;;
  match postResult env with
  | None => ret tt
  | Some e => throw e
  end.

(** [await Util.sleep(ms)] *)
Definition sleep (env : DispatchEnv) (ms : Q) : M unit :=
  emit (ESleep ms) ;;
  interleave (whileSleeping env).

Definition release (w : World) : World :=
  with_trace (trace w ++ [ERelease]) (with_mutexLocked false w).

(** [this.#mutex.runExclusive(m)]: the mutex is handed back whether [m]
    returns or throws, and what [m] throws is thrown on.  A call that
    finds the mutex taken waits its turn, so [m] always starts with the
    mutex in hand. *)
Definition runExclusive {A : Type} (m : M A) : M A :=
  lift (with_mutexLocked true) ;;
  emit EAcquire ;;
  finally m release.

Definition isWebAPIMode (w : World) : bool :=
  match client w with
  | CandyClient => true
  | CognitoClient => false
  end.

Definition settle_ms : Q := (2.5 * 1000)%Q.

(** The function handed to [runExclusive]. *)
Definition setLockTargetState_exclusive (env : DispatchEnv) (value : JsVal)
    (cmd : Command) : M unit :=
  updateValue LockTargetState value ;;
  postCmd env cmd (configName cfg) ;;
  (* Using CognitoClient, we don't need update manually.
     Updating status will be done by mqtt subscription.
     While CandyClient delays until next updateStatus occurs.
     So, update status for CandyClient only. *)
  fun w =>
    (when isWebAPIMode w then
       (* Adjust update timing *)
       sleep env settle_ms ;;
       (* Update state *)
       updateToLatestStatus_call) w.

(** The [catch] block. *)
Definition setLockTargetState_catch (error : Thrown) : M unit :=
  match error with
  | ErrorObj message => log LError (MsgErrorMessage deviceName message)
  | NonError => ret tt
  end ;;
  log LDebug (MsgThrown error) ;;
  (* Mark as jammed *)
  updateValue LockCurrentState HAP.JAMMED.

Definition setLockTargetState (env : DispatchEnv) (value : JsVal) : M unit :=
  let dispatch (cmd : Command) : M unit :=
    try_catch
      (runExclusive (setLockTargetState_exclusive env value cmd))
      setLockTargetState_catch
  in
  if strict_eq value HAP.SECURED then
    log LInfo (MsgSendingRequest deviceName lock) ;;
    dispatch lock
  else if strict_eq value HAP.UNSECURED then
    log LInfo (MsgSendingRequest deviceName unlock) ;;
    dispatch unlock
  else ret tt.

(** *** The constructor *)

(** The [PlatformAccessory] the constructor is given: restored from the
    cache, or new. *)
Record Accessory : Type := mkAccessory {
  accContext : Context;
  accChars : Chars;
  accHasSensor : bool
}.

(** [typeof clientID != "undefined" && clientID != ""] picks the push
    client, anything else the polling client. *)
Definition selectClient : ClientKind :=
  match clientID cfg with
  | Some id => if String.eqb id "" then CandyClient else CognitoClient
  | None => CandyClient
  end.

(** The body of the constructor.  Creating the client and the mutex is in
    [blank]; registering the shutdown handler and the read and write
    handlers changes nothing by itself (they are [onShutdown],
    [getLockState], [setLockTargetState], ... above); the
    AccessoryInformation and Name characteristics, which nothing reads
    back, are left out. *)
Definition constructor (now : Z) (fg : Fakegato) : M unit :=
  log LDebug (MsgUsingClient selectClient) ;;
  c <- read_context ;;
  log LDebug (MsgContextDump (sesameHistory cfg) c) ;;
  (* Initialize accessory characteristics *)
  assign set_lockState (nullish (lockState c) HAP.SECURED) ;;
  assign set_batteryLevel (nullish (batteryLevel c) (JNumber 100)) ;;
  assign set_batteryCritical (nullish (batteryCritical c) (JBool false)) ;;
  assign set_timesOpened (nullish (timesOpened c) (JNumber 0)) ;;
  assign set_lastReset (nullish (lastReset c) (JNumber 0)) ;;
  (* Setup EVE history features *)
  match sesameHistory cfg with
  | Some true => setupHistoryService now fg
  | _ =>
      (* discards cached values if history is turned off *)
      assign set_batteryLevel (JNumber 100) ;;
      assign set_batteryCritical (JBool false) ;;
      assign set_timesOpened JUndefined ;;
      assign set_lastReset JUndefined
  end ;;
  (* Start updating status *)
  updateToLatestStatus_call ;;
  subscribe.

(** The object before the constructor body has touched it. *)
Definition blank (acc : Accessory) : World :=
  mkWorld (accContext acc) (accChars acc) (accHasSensor acc) None
          selectClient [] false [].

(** [new Sesame3(platform, accessory, sesame)] *)
Definition new_Sesame3 (now : Z) (fg : Fakegato) (acc : Accessory) : World :=
  exec (constructor now fg) (blank acc).

End Sesame3.

(** A [PlatformAccessory] that was just created: an empty context, every
    characteristic at the framework's initial value, no contact sensor. *)
Definition fresh_accessory : Accessory :=
  mkAccessory
    (mkContext JUndefined JUndefined JUndefined JUndefined JUndefined JUndefined)
    (mkChars (JNumber 0) (JNumber 0) (JNumber 0) (JNumber 0)
             (JNumber 0) (JNumber 0) (JNumber 0))
    false.

(** What of a running accessory the cache keeps. *)
Definition accessory_of (w : World) : Accessory :=
  mkAccessory (context w) (chars w) (hasSensor w).

(* ================================================================== *)
(** ** The accessory over its lifetime *)

Inductive Event : Type :=
| EvCallback (cb : Callback)
| EvSetTarget (env : DispatchEnv) (value : JsVal)   (* a write to LockTargetState *)
| EvRestart (cfg' : Config) (now : Z) (fg : Fakegato).

Record System : Type := mkSystem {
  config : Config;
  world : World
}.

Definition step (s : System) (e : Event) : System :=
  match e with
  | EvCallback cb => mkSystem (config s) (run_callback (config s) (world s) cb)
  | EvSetTarget env value =>
      mkSystem (config s) (exec (setLockTargetState (config s) env value) (world s))
  | EvRestart cfg' now fg =>
      mkSystem cfg' (new_Sesame3 cfg' now fg (accessory_of (world s)))
  end.

Definition run (s : System) (es : list Event) : System := fold_left step es s.

(** The first start of this version of the class on an accessory. *)
Definition boot (cfg : Config) (now : Z) (fg : Fakegato) (acc : Accessory)
  : System :=
  mkSystem cfg (new_Sesame3 cfg now fg acc).

(* ================================================================== *)
(** ** Concrete accessories used in the examples below *)

Definition example_cfg : Config :=
  mkConfig None "Homebridge" (Some "Front door"%string) "0a1b2c3d" (Some true).

Definition example_push_cfg : Config :=
  mkConfig (Some "client-id"%string) "Homebridge" (Some "Front door"%string)
           "0a1b2c3d"
           (Some true).

Definition example_fakegato : Fakegato := mkFakegato 1700000000 [].

(** A new accessory with history on, started at 1700000000 s: Secured,
    battery 100, not critical, one heartbeat entry, one pending timer. *)
Definition example_world : World :=
  new_Sesame3 example_cfg 1700000000000 example_fakegato fresh_accessory.

(** The same after a first unlocked sample, five seconds later. *)
Definition example_unlocked_world : World :=
  exec (setLockStatus example_cfg 1700000005000 (mkStatus false true 40 false))
       example_world.

Definition example_push_world : World :=
  new_Sesame3 example_push_cfg 1700000000000 example_fakegato fresh_accessory.

(** The targets [setLockTargetState] acts on. *)
Definition value_is_valid (value : JsVal) : Prop :=
  value = HAP.SECURED \/ value = HAP.UNSECURED.

(** The command a target value is translated to. *)
Definition commandFor (value : JsVal) : Command :=
  if strict_eq value HAP.SECURED then lock else unlock.

(** The accessory at the moment the promise of [postCmd] settles, in a
    call of [setLockTargetState] for a valid target: the request is
    logged, the mutex taken, LockTargetState set to the target, the
    command handed to the client, and the callbacks that came in while the
    call was suspended have run. *)
Definition posted (cfg : Config) (env : DispatchEnv) (value : JsVal)
    (w : World) : World :=
  fold_left (run_callback cfg) (whilePosting env)
    (exec (log LInfo (MsgSendingRequest (deviceName cfg) (commandFor value)) ;;
           lift (with_mutexLocked true) ;;
           emit EAcquire ;;
           updateValue LockTargetState value ;;
           emit (EPostCmd (commandFor value) (configName cfg)))
          w).

(** The same at the end of the settling delay. *)
Definition settled (cfg : Config) (env : DispatchEnv) (value : JsVal)
    (w : World) : World :=
  fold_left (run_callback cfg) (whileSleeping env)
    (exec (emit (ESleep settle_ms)) (posted cfg env value w)).

(** The effects a callback can have, as opposed to those only the
    dispatcher and the constructor have. *)
Definition callback_effect (e : Effect) : Prop :=
  match e with
  | EUpdateValue _ _ | ELog _ _ | EAddEntry _ | ESetTimeout _
  | EClientShutdown => True
  | EPostCmd _ _ | ESleep _ | EGetMechStatus | ESubscribe
  | EAcquire | ERelease => False
  end.

(** The stored lock state is one of the two a sample can stand for. *)
Definition lock_ok (w : World) : Prop :=
  getLockState w = HAP.SECURED \/ getLockState w = HAP.UNSECURED.

(** The callbacks that neither open the lock nor reset the counter:
    everything but an unlocked sample and a write to ResetTotal. *)
Definition quiet (cb : Callback) : Prop :=
  match cb with
  | CbPush _ st | CbPolled _ (Some st) =>
      isInLockRange st = true \/ isInLockRange st = isInUnlockRange st
  | CbPolled _ None | CbTimer _ | CbShutdown => True
  | CbResetTotal _ => False
  end.

(** The lock state a valid sample stands for. *)
Definition derived (st : MechStatus) : JsVal :=
  if isInLockRange st then HAP.SECURED else HAP.UNSECURED.

(* ================================================================== *)
(** ** Vocabulary for the properties of the rest of the class *)

(** Counting effects of one kind in a trace. *)
Definition is_postCmd (e : Effect) : bool :=
  match e with EPostCmd _ _ => true | _ => false end.
Definition is_acquire (e : Effect) : bool :=
  match e with EAcquire => true | _ => false end.
Definition is_release (e : Effect) : bool :=
  match e with ERelease => true | _ => false end.
Definition count (p : Effect -> bool) (t : list Effect) : nat :=
  List.length (filter p t).

Definition is_restart (e : Event) : bool :=
  match e with EvRestart _ _ _ => true | _ => false end.

(** A ['change'] event of ContactSensorState, and its delivery to the
    listener. *)
Record Change : Type := mkChange {
  changeAt : Z;            (* the clock, in milliseconds *)
  changeOld : JsVal;       (* [event.oldValue] *)
  changeNew : JsVal        (* [event.newValue] *)
}.

Definition deliver (w : World) (c : Change) : World :=
  exec (onContactChange (changeAt c) (changeOld c) (changeNew c)) w.

(** The events the listener acts on, and those among them that open. *)
Definition changes (c : Change) : bool :=
  strict_neq (changeNew c) (changeOld c).
Definition opens (c : Change) : bool :=
  changes c && truthy (changeNew c).

(** The contact sensor exists and shows what the stored lock state
    stands for. *)
Definition mirrors (w : World) : Prop :=
  hasSensor w = true
  /\ charValue ContactSensorState (chars w) = contactStateOf (getLockState w).

(** One heartbeat timer is pending when the history service is set up,
    none otherwise. *)
Definition heartbeat_ok (w : World) : Prop :=
  match historyService w with
  | Some _ => List.length (timers w) = 1%nat
  | None => timers w = []
  end.

(** The history holds the entries [es0] and what came after them. *)
Definition extends (t0 : Z) (es0 : list HistoryEntry) (w : World) : Prop :=
  exists later, historyService w = Some (mkFakegato t0 (es0 ++ later)).

(* ================================================================== *)
(** ** The earlier version of the class

    The second version in the same file keeps the same state in private
    fields ([#lockState], [#timesOpened], [#lastReset], ...), held here in
    the record used for the context.  Its handlers of the Eve
    characteristics differ from the later ones as follows. *)

Module Earlier.

(** The private fields when the constructor is done:
    [#lockState = SECURED], [#batteryLevel = 100],
    [#batteryCritical = false], [#timesOpened = 0], [#lastReset] and
    [#lastActivation] not set. *)
Definition initial_fields : Context :=
  mkContext HAP.SECURED (JNumber 100) (JBool false) (JNumber 0)
            JUndefined JUndefined.

(** [onGet] of ResetTotal:
    [this.#lastReset || getInitialTime() - epochOffset] *)
Definition getResetTotal : M JsVal :=
  c <- read_context ;;
  if truthy (lastReset c)
  then ret (lastReset c)
  else t0 <- getInitialTime ;; ret (sub t0 (JNumber epochOffset)).

(** [onSet] of ResetTotal *)
Definition resetTotal (reset : JsVal) : M unit :=
  assign set_timesOpened (JNumber 0) ;;
  assign set_lastReset reset ;;
  sensor_updateCharacteristic TimesOpened (ret (JNumber 0)) ;;
  log LInfo MsgResetTimesOpened ;;
  log LInfo (MsgSetLastReset reset).

(** [onGet] of LastActivation:
    [this.#lastActivation ? this.#lastActivation - getInitialTime() : 0] *)
Definition getLastActivation : M JsVal :=
  c <- read_context ;;
  if truthy (lastActivation c)
  then t0 <- getInitialTime ;; ret (sub (lastActivation c) t0)
  else ret (JNumber 0).

End Earlier.

(* ================================================================== *)
(** ** The first version of the class ([accessories/Sesame3.ts])

    It polls a shadow of the device, keeps [#lockState] and
    [#batteryLevel] in private fields (held here in the record used for the
    context), takes the mutex for status updates as well as for commands,
    and rolls back on a failed command. *)

Module Oldest.

(** [Sesame2Shadow] *)
Record Sesame2Shadow : Type := mkShadow {
  CHSesame2Status : string;
  shadowBattery : Z                  (* [batteryPercentage] *)
}.

(** [a < n] for a number [n] *)
Definition less_than (a : JsVal) (n : Z) : JsVal :=
  match to_number a with
  | JNumber z => JBool (z <? n)
  | _ => JBool false
  end.

Definition getStatusLowBattery (w : World) : JsVal :=
  less_than (batteryLevel (context w)) 20.

(** [updateStatus], [fetched] being what [fetchSesameShadow()] comes back
    with.  Everything happens with the mutex held. *)
Definition updateStatus (fetched : Sesame2Shadow + Thrown) : M unit :=
  runExclusive
    (emit EGetMechStatus ;;
     match fetched with
     | inr e => throw e
     | inl shadow =>
         let lockState :=
           if String.eqb (CHSesame2Status shadow) "locked" then HAP.SECURED
           else if String.eqb (CHSesame2Status shadow) "unlocked"
                then HAP.UNSECURED
                else HAP.UNKNOWN in
         assign set_lockState lockState ;;
         assign set_batteryLevel (JNumber (shadowBattery shadow)) ;;
         (* Update value. This triggers home notification *)
         (fun w => updateValue LockCurrentState (getLockState w) w) ;;
         (fun w => updateValue BatteryLevel (getBatteryLevel w) w) ;;
         (fun w => updateValue StatusLowBattery (getStatusLowBattery w) w)
     end).

(** A status update runs on its own stack; what the fetch throws is not
    caught by anyone. *)
Definition run_update (w : World) (fetched : Sesame2Shadow + Thrown) : World :=
  exec (updateStatus fetched) w.

Definition settle_timeout_ms : Z := 3000.

(** [setLockTargetState].  [waiting] are the status updates that hold the
    mutex before the call gets it; [post] is how [postCmd] ends. *)
Definition setLockTargetState (actor : string)
    (waiting : list (Sesame2Shadow + Thrown)) (post : option Thrown)
    (value : JsVal) : M unit :=
  fun w =>
    let currentLockState := getLockState w in
    let dispatch (cmd : Command) : M unit :=
      try_catch
        (lift (fun w => fold_left run_update waiting w) ;;
         runExclusive
           (updateValue LockTargetState value ;;
            emit (EPostCmd cmd actor) ;;
            match post with
            | None => ret tt
            | Some e => throw e
            end) ;;
         (* Update state *)
         lift (fun w => with_timers (timers w ++ [settle_timeout_ms]) w) ;;
         emit (ESetTimeout settle_timeout_ms))
        (fun e =>
           log LError (MsgThrown e) ;;
           (* rollback *)
           updateValue LockCurrentState currentLockState ;;
           updateValue LockTargetState currentLockState)
    in
    (if strict_eq value HAP.SECURED then dispatch lock
     else if strict_eq value HAP.UNSECURED then dispatch unlock
     else ret tt) w.

(** The private fields when the constructor is done. *)
Definition initial_lockState : JsVal := HAP.UNKNOWN.
Definition initial_batteryLevel : JsVal := JNumber 100.

End Oldest.

(* ================================================================== *)
(** ** The platform that creates the accessories ([platform.ts]) *)

Module Platform.

(** [SesameLock], an entry of [config.locks] *)
Record SesameLock : Type := mkLock {
  uuid : string;
  name : option string
}.

(** What the platform reads of a [PlatformAccessory] *)
Record PlatformAccessory : Type := mkPlatformAccessory {
  displayName : string;
  UUID : string
}.

Inductive PlatformLog : Type :=
| LoadingFromCache (displayName : string)
| RemovingFromCache (displayName : string)
| RestoringFromCache (displayName : string)
| AddingNew (uuid : string)
| FinishedInitializing
| ExecutedDidFinishLaunching.

(** What the platform does to the bridge and to the accessory class. *)
Inductive Action : Type :=
| Log (m : PlatformLog)
| NewSesame3 (accessory : PlatformAccessory) (sesame : SesameLock)
| Register (accessory : PlatformAccessory)
| Unregister (accessory : PlatformAccessory).

(** A listener of [didFinishLaunching]. *)
Inductive Handler : Type :=
| Initialize                                  (* set by the constructor *)
| Remove (accessory : PlatformAccessory).     (* set by [configureAccessory] *)

(** The platform object: [config.locks], [accessories], the listeners
    registered with the bridge, and what was done so far. *)
Record State : Type := mkState {
  locks : list SesameLock;
  accessories : list PlatformAccessory;
  handlers : list Handler;
  actions : list Action
}.

(** The configuration object as the bridge hands it over: the keys it
    has, and its [locks]. *)
Record PlatformConfig : Type := mkPlatformConfig {
  keys : list string;
  configLocks : list SesameLock
}.

Definition do (a : list Action) (s : State) : State :=
  mkState (locks s) (accessories s) (handlers s) (actions s ++ a).

Definition on_didFinishLaunching (h : Handler) (s : State) : State :=
  mkState (locks s) (accessories s) (handlers s ++ [h]) (actions s).

Definition push (a : PlatformAccessory) (s : State) : State :=
  mkState (locks s) (accessories s ++ [a]) (handlers s) (actions s).

(** [key in config] for each of the four keys *)
Definition verifyConfig (config : PlatformConfig) : bool :=
  forallb (fun key => existsb (String.eqb key) (keys config))
          ["apiKey"; "clientID"; "locks"; "updateInterval"]%string.

(** The constructor: a configuration that fails the check is replaced by
    one without locks, and nothing is set to run at launch. *)
Definition new_OpenSesame (config : PlatformConfig) : State :=
  let started := [Log FinishedInitializing] in
  if negb (verifyConfig config)
  then mkState [] [] [] started
  else mkState (configLocks config) [] [Initialize] started.

Section Bridge.

(** [api.hap.uuid.generate] *)
Variable generate : string -> string.

Definition configureAccessory (accessory : PlatformAccessory) (s : State)
  : State :=
  let s := do [Log (LoadingFromCache (displayName accessory))] s in
  let existingConfig :=
    find (fun sesame => String.eqb (generate (uuid sesame)) (UUID accessory))
         (locks s) in
  match existingConfig with
  | None => on_didFinishLaunching (Remove accessory) s
  | Some _ => push accessory s
  end.

Definition initializeSesameLocks (s : State) : State :=
  fold_left
    (fun s sesame =>
       let uuid' := generate (uuid sesame) in
       let existingAccessory :=
         find (fun accessory => String.eqb (UUID accessory) uuid')
              (accessories s) in
       match existingAccessory with
       | Some existingAccessory =>
           do [Log (RestoringFromCache (displayName existingAccessory));
               NewSesame3 existingAccessory sesame] s
       | None =>
           let name' :=
             match name sesame with Some n => n | None => uuid sesame end in
           let accessory := mkPlatformAccessory name' uuid' in
           do [Log (AddingNew (uuid sesame));
               NewSesame3 accessory sesame;
               Register accessory] s
       end)
    (locks s) s.

(** A listener of [didFinishLaunching] runs. *)
Definition run_handler (s : State) (h : Handler) : State :=
  match h with
  | Initialize =>
      initializeSesameLocks (do [Log ExecutedDidFinishLaunching] s)
  | Remove accessory =>
      do [Log (RemovingFromCache (displayName accessory));
          Unregister accessory] s
  end.

(** The bridge starts: the platform is created, handed each cached
    accessory, and told that launching is finished; the listeners run in
    the order they were registered in. *)
Definition launch (config : PlatformConfig) (cached : list PlatformAccessory)
  : State :=
  let s := fold_left (fun s a => configureAccessory a s) cached
                     (new_OpenSesame config) in
  fold_left run_handler (handlers s) s.

(** The lock [sesame] is the one the cached accessory [a] was made for. *)
Definition made_for (sesame : SesameLock) (a : PlatformAccessory) : bool :=
  String.eqb (UUID a) (generate (uuid sesame)).

(** The accessory made for a lock that has none in the cache. *)
Definition new_accessory (sesame : SesameLock) : PlatformAccessory :=
  mkPlatformAccessory
    (match name sesame with Some n => n | None => uuid sesame end)
    (generate (uuid sesame)).

(** Some lock of the configuration is the one [a] was made for. *)
Definition configured (ls : list SesameLock) (a : PlatformAccessory) : bool :=
  existsb (fun sesame => made_for sesame a) ls.

(** Some accessory of the cache was made for [sesame]. *)
Definition cached_for (cached : list PlatformAccessory) (sesame : SesameLock)
  : bool :=
  existsb (made_for sesame) cached.

(** What [initializeSesameLocks] does for one lock. *)
Definition for_lock (known : list PlatformAccessory) (sesame : SesameLock)
  : list Action :=
  match find (made_for sesame) known with
  | Some existingAccessory =>
      [Log (RestoringFromCache (displayName existingAccessory));
       NewSesame3 existingAccessory sesame]
  | None =>
      [Log (AddingNew (uuid sesame));
       NewSesame3 (new_accessory sesame) sesame;
       Register (new_accessory sesame)]
  end.

End Bridge.

(** What a run of the platform did, by kind. *)
Definition constructed (acts : list Action)
  : list (PlatformAccessory * SesameLock) :=
  flat_map (fun a => match a with
                     | NewSesame3 acc sesame => [(acc, sesame)]
                     | _ => []
                     end) acts.

Definition registered (acts : list Action) : list PlatformAccessory :=
  flat_map (fun a => match a with Register acc => [acc] | _ => [] end) acts.

Definition unregistered (acts : list Action) : list PlatformAccessory :=
  flat_map (fun a => match a with Unregister acc => [acc] | _ => [] end) acts.

End Platform.

(* ================================================================== *)
(** ** Proof support *)

(** Reduce the methods, the monad and the record updates, leaving the
    operations on JavaScript values and on lists folded. *)
Ltac reduce_model :=
  cbv beta iota zeta delta
    [exec outcome run_callback callback
     setLockStatus updateToLatestStatus_resume updateToLatestStatus_call
     updateContactSensorState updateValue_ContactSensorState onContactChange
     sensor_updateCharacteristic fireTimer updateHistory resetTotal
     onShutdown subscribe addEntry getInitialTime the_historyService
     setLockTargetState setLockTargetState_exclusive setLockTargetState_catch
     try_catch runExclusive finally postCmd sleep interleave release
     isWebAPIMode
     updateValue assign log emit read_context lift bind ret throw
     getLockState getBatteryLevel getStatusLowBattery getTimesOpened
     constructor setupHistoryService new_Sesame3 blank accessory_of
     accContext accChars accHasSensor
     with_context with_chars with_hasSensor with_historyService with_timers
     with_mutexLocked with_trace
     set_lockState set_batteryLevel set_batteryCritical set_timesOpened
     set_lastReset set_lastActivation
     context chars hasSensor historyService client timers mutexLocked trace
     lockState batteryLevel batteryCritical timesOpened lastReset
     lastActivation
     setChar charValue cLockTargetState cLockCurrentState cBatteryLevel
     cStatusLowBattery cContactSensorState cTimesOpened cLastActivation
     fst snd time status] in *.

(** Name the fields of a world, so that the projections compute. *)
Ltac open_world w :=
  let ctx := fresh "ctx" in
  let chs := fresh "chs" in
  destruct w as [ctx chs ? ? ? ? ? ?]; destruct ctx, chs.

(** Decide the innermost [match] or [if] of the goal, reusing what is
    already known about its scrutinee. *)
Ltac split_match :=
  match goal with
  | |- context [match ?x with _ => _ end] =>
      lazymatch x with
      | context [match _ with _ => _ end] => fail
      | _ =>
          first [ match goal with H : x = _ |- _ => rewrite H end
                | destruct x eqn:? ]
      end
  end.

Ltac run_model := reduce_model; repeat (split_match; reduce_model).

Lemma strict_eq_number (z : Z) (v : JsVal) :
  strict_eq (JNumber z) v = true <-> v = JNumber z.
Proof.
  destruct v; cbn; split; intro H; try congruence.
  - apply Z.eqb_eq in H. congruence.
  - apply Z.eqb_eq. congruence.
Qed.

(** Turn what the comparisons with a lock state returned into equations. *)
Ltac know_lockState :=
  repeat match goal with
         | H : strict_eq (JNumber _) _ = true |- _ =>
             apply strict_eq_number in H
         | H : strict_eq HAP.SECURED _ = true |- _ =>
             apply strict_eq_number in H
         | H : strict_eq HAP.UNSECURED _ = true |- _ =>
             apply strict_eq_number in H
         end.

Lemma eqb_false_neq (a b : bool) : Bool.eqb a b = false <-> a <> b.
Proof. destruct a, b; cbn; split; intro H; congruence. Qed.

Lemma derived_cases (st : MechStatus) :
  derived st = HAP.SECURED \/ derived st = HAP.UNSECURED.
Proof. unfold derived. destruct (isInLockRange st); auto. Qed.

(** After a valid sample the stored lock state is the derived one. *)
Lemma setLockStatus_stores_derived (cfg : Config) (now : Z) (st : MechStatus)
    (w : World) :
  isInLockRange st <> isInUnlockRange st ->
  lockState (context (exec (setLockStatus cfg now st) w)) = derived st.
Proof.
  intros Hvalid. apply eqb_false_neq in Hvalid.
  unfold derived. open_world w.
  run_model; try reflexivity; know_lockState; assumption.
Qed.

(** A valid sample that changes the stored lock state hands the new
    state to both lock characteristics. *)
Lemma setLockStatus_publishes (cfg : Config) (now : Z) (st : MechStatus)
    (w : World) :
  isInLockRange st <> isInUnlockRange st ->
  getLockState w <> derived st ->
  let w' := exec (setLockStatus cfg now st) w in
  charValue LockCurrentState (chars w') = derived st
  /\ charValue LockTargetState (chars w') = derived st
  /\ getLockState w' = derived st.
Proof.
  intros Hvalid Hdiff w'. subst w'. apply eqb_false_neq in Hvalid.
  unfold derived in *. open_world w.
  run_model; know_lockState; try contradiction; repeat split.
Qed.

(* ================================================================== *)
(** ** The state reconciler *)

(** C1. A sample whose [isInLockRange] equals its [isInUnlockRange] (both
    set or both clear) is dropped by [setLockStatus]: the call returns
    normally and leaves the whole accessory as it was -- the persisted
    context (lock state, battery level, battery-critical flag, counters),
    every characteristic, the history and the trace of updates, log lines
    and notifications.  The same holds on both ways a sample comes in,
    the subscription callback and the answer to a poll. *)
Theorem C1_ambiguous_sample_is_a_no_op
    (cfg : Config) (now : Z) (st : MechStatus) (w : World) :
  isInLockRange st = isInUnlockRange st ->
  setLockStatus cfg now st w = (Ok tt, w)
  /\ run_callback cfg w (CbPush now st) = w
  /\ run_callback cfg w (CbPolled now (Some st)) = w.
Proof.
  intros Hamb.
  assert (Hset : setLockStatus cfg now st w = (Ok tt, w)).
  { unfold setLockStatus. rewrite Hamb, Bool.eqb_reflx. reflexivity. }
  repeat split; trivial.
  - unfold run_callback, exec, callback. now rewrite Hset.
  - unfold run_callback, exec, callback, updateToLatestStatus_resume.
    now rewrite Hset.
Qed.

Lemma C1_witness :
  let st := mkStatus true true 40 false in
  isInLockRange st = isInUnlockRange st
  /\ setLockStatus example_cfg 1700000005000 st example_world
     = (Ok tt, example_world).
Proof.
  intro st. split; [reflexivity|].
  apply (C1_ambiguous_sample_is_a_no_op example_cfg 1700000005000 st
           example_world).
  reflexivity.
Defined.

(** A valid sample that stands for the stored lock state changes nothing. *)
Lemma setLockStatus_same_state (cfg : Config) (now : Z) (st : MechStatus)
    (w : World) :
  lockState (context w) = derived st ->
  setLockStatus cfg now st w = (Ok tt, w).
Proof.
  intros Hsame. unfold setLockStatus.
  destruct (Bool.eqb (isInLockRange st) (isInUnlockRange st)); [reflexivity|].
  unfold bind, read_context. fold (derived st). rewrite Hsame.
  destruct (derived_cases st) as [-> | ->]; reflexivity.
Qed.

(** C2. A valid sample whose derived lock state is the stored one makes
    [setLockStatus] return with the accessory untouched: no characteristic
    update, no history entry, no log line, no change of the context.
    Hence, from any state, applying a valid sample a second time is a
    no-op, whatever the first application did. *)
Theorem C2_repeated_sample_is_a_no_op
    (cfg : Config) (st : MechStatus) (w : World) :
  isInLockRange st <> isInUnlockRange st ->
  (forall now, lockState (context w) = derived st ->
               setLockStatus cfg now st w = (Ok tt, w))
  /\ (forall now1 now2,
        let w1 := exec (setLockStatus cfg now1 st) w in
        setLockStatus cfg now2 st w1 = (Ok tt, w1)).
Proof.
  intros Hvalid. split.
  - intros now Hsame. now apply setLockStatus_same_state.
  - intros now1 now2 w1. apply setLockStatus_same_state.
    now apply setLockStatus_stores_derived.
Qed.

Lemma C2_witness :
  let st := mkStatus false true 40 false in
  let w1 := exec (setLockStatus example_cfg 1700000005000 st) example_world in
  isInLockRange st <> isInUnlockRange st
  /\ w1 <> example_world
  /\ setLockStatus example_cfg 1700000009000 st w1 = (Ok tt, w1).
Proof.
  intros st w1. split; [discriminate|]. split; [discriminate|].
  apply (C2_repeated_sample_is_a_no_op example_cfg st example_world).
  discriminate.
Defined.

(** C4, as stated: every valid sample refreshes the stored battery
    fields.  It fails on a sample that repeats the stored lock state: the
    accessory above is Secured with battery 100, and a locked sample
    reporting 40 and critical leaves 100 and not critical in place. *)
Lemma C4_counterexample :
  ~ (forall (cfg : Config) (now : Z) (st : MechStatus) (w : World),
        isInLockRange st <> isInUnlockRange st ->
        let w' := exec (setLockStatus cfg now st) w in
        batteryLevel (context w') = JNumber (batteryPercentage st)
        /\ batteryCritical (context w') = JBool (isBatteryCritical st)).
Proof.
  intro H.
  specialize (H example_cfg 1700000005000 (mkStatus true false 40 true)
                example_world).
  destruct H as [Hlevel _]; [discriminate|].
  vm_compute in Hlevel. discriminate.
Qed.

(** C4, amended. A valid sample whose derived lock state differs from the
    stored one stores [batteryPercentage] and [isBatteryCritical] in the
    context, where the read handlers of BatteryLevel and StatusLowBattery
    find them, and hands both to [updateValue]: after the log line and the
    two updates of the lock characteristics the trace shows an update of
    BatteryLevel with the percentage and one of StatusLowBattery with the
    flag.  A valid sample whose derived lock state is the stored one
    leaves the battery fields as they were and hands nothing over. *)
Theorem C4_battery_follows_lock_state_change
    (cfg : Config) (now : Z) (st : MechStatus) (w : World) :
  isInLockRange st <> isInUnlockRange st ->
  let w' := exec (setLockStatus cfg now st) w in
  (lockState (context w) <> derived st ->
     batteryLevel (context w') = JNumber (batteryPercentage st)
     /\ batteryCritical (context w') = JBool (isBatteryCritical st)
     /\ getBatteryLevel w' = JNumber (batteryPercentage st)
     /\ getStatusLowBattery w' = JBool (isBatteryCritical st)
     /\ exists rest,
          trace w'
          = trace w
            ++ [ELog LInfo (MsgCurrentState (deviceName cfg)
                              (truthy (derived st)));
                EUpdateValue LockTargetState (derived st);
                EUpdateValue LockCurrentState (derived st);
                EUpdateValue BatteryLevel (JNumber (batteryPercentage st));
                EUpdateValue StatusLowBattery (JBool (isBatteryCritical st))]
            ++ rest)
  /\ (lockState (context w) = derived st ->
        batteryLevel (context w') = batteryLevel (context w)
        /\ batteryCritical (context w') = batteryCritical (context w)
        /\ trace w' = trace w).
Proof.
  intros Hvalid w'. split.
  - intros Hdiff. subst w'. apply eqb_false_neq in Hvalid.
    unfold derived in *. open_world w.
    run_model; know_lockState; try contradiction;
      do 4 (split; [reflexivity|]);
      eexists; rewrite <- ?app_assoc; cbn [app]; reflexivity.
  - intros Hsame. subst w'. unfold exec.
    rewrite (setLockStatus_same_state cfg now st w Hsame).
    repeat split; reflexivity.
Qed.

Lemma C4_witness :
  let st := mkStatus false true 40 true in
  let w' := exec (setLockStatus example_cfg 1700000005000 st) example_world in
  isInLockRange st <> isInUnlockRange st
  /\ lockState (context example_world) <> derived st
  /\ batteryLevel (context w') = JNumber 40
  /\ batteryCritical (context w') = JBool true.
Proof.
  intros st w'.
  assert (Hvalid : isInLockRange st <> isInUnlockRange st) by discriminate.
  assert (Hdiff : lockState (context example_world) <> derived st)
    by discriminate.
  split; [exact Hvalid|]. split; [exact Hdiff|].
  destruct (C4_battery_follows_lock_state_change example_cfg 1700000005000 st
              example_world Hvalid) as [Hchange _].
  destruct (Hchange Hdiff) as (Hl & Hc & _).
  split; [exact Hl | exact Hc].
Defined.

(* ================================================================== *)
(** ** What callbacks leave alone *)

Ltac solve_trace :=
  first
    [ exists []; split; [symmetry; apply app_nil_r | constructor]
    | rewrite <- ?app_assoc; cbn [app]; eexists;
      split; [reflexivity | repeat constructor] ].

Lemma callback_client (cfg : Config) (w : World) (cb : Callback) :
  client (run_callback cfg w cb) = client w.
Proof.
  open_world w.
  destruct cb as [now st | now [st|] | now | reset | ]; run_model; reflexivity.
Qed.

Lemma callback_trace (cfg : Config) (w : World) (cb : Callback) :
  exists t, trace (run_callback cfg w cb) = trace w ++ t
            /\ Forall callback_effect t.
Proof.
  open_world w.
  destruct cb as [now st | now [st|] | now | reset | ]; run_model; solve_trace.
Qed.

Lemma callback_lock_ok (cfg : Config) (w : World) (cb : Callback) :
  lock_ok w -> lock_ok (run_callback cfg w cb).
Proof.
  unfold lock_ok. open_world w.
  destruct cb as [now st | now [st|] | now | reset | ]; run_model; auto.
Qed.

Lemma interleave_client (cfg : Config) (cbs : list Callback) (w : World) :
  client (fold_left (run_callback cfg) cbs w) = client w.
Proof.
  revert w. induction cbs as [|cb cbs IH]; intro w; cbn; [reflexivity|].
  rewrite IH. apply callback_client.
Qed.

Lemma interleave_trace (cfg : Config) (cbs : list Callback) (w : World) :
  exists t, trace (fold_left (run_callback cfg) cbs w) = trace w ++ t
            /\ Forall callback_effect t
            /\ (cbs = [] -> t = []).
Proof.
  revert w. induction cbs as [|cb cbs IH]; intro w; cbn.
  - exists []. repeat split; [symmetry; apply app_nil_r | constructor].
  - destruct (IH (run_callback cfg w cb)) as (t2 & Ht2 & Hall2 & _).
    destruct (callback_trace cfg w cb) as (t1 & Ht1 & Hall1).
    exists (t1 ++ t2). repeat split.
    + rewrite Ht2, Ht1. symmetry. apply app_assoc.
    + apply Forall_app. split; assumption.
    + discriminate.
Qed.

Lemma interleave_lock_ok (cfg : Config) (cbs : list Callback) (w : World) :
  lock_ok w -> lock_ok (fold_left (run_callback cfg) cbs w).
Proof.
  revert w. induction cbs as [|cb cbs IH]; intros w Hok; cbn; [exact Hok|].
  apply IH. now apply callback_lock_ok.
Qed.

(* ================================================================== *)
(** ** The command dispatcher *)

(** C3. Whenever [postCmd] rejects during [setLockTargetState] for one of
    the two valid targets, whatever the error and whatever the accessory
    looked like before, the call itself returns normally (the error is
    caught inside) and the LockCurrentState characteristic reads Jammed
    when it returns. *)
Theorem C3_failed_command_is_caught_and_marks_jammed
    (cfg : Config) (env : DispatchEnv) (value : JsVal) (w : World)
    (e : Thrown) :
  value_is_valid value ->
  postResult env = Some e ->
  outcome (setLockTargetState cfg env value) w = Ok tt
  /\ charValue LockCurrentState
       (chars (exec (setLockTargetState cfg env value) w)) = HAP.JAMMED.
Proof.
  intros [-> | ->] Hfail; reduce_model; cbn; rewrite Hfail;
    destruct e; split; reflexivity.
Qed.

Lemma C3_witness :
  let env := mkEnv (Some (ErrorObj "network timeout")) [] [] in
  postResult env = Some (ErrorObj "network timeout")
  /\ outcome (setLockTargetState example_cfg env HAP.UNSECURED) example_world
     = Ok tt
  /\ charValue LockCurrentState
       (chars (exec (setLockTargetState example_cfg env HAP.UNSECURED)
                    example_world)) = HAP.JAMMED.
Proof.
  intro env. split; [reflexivity|].
  apply (C3_failed_command_is_caught_and_marks_jammed example_cfg env
           HAP.UNSECURED example_world (ErrorObj "network timeout")).
  - right. reflexivity.
  - reflexivity.
Defined.


Ltac reduce_dispatch :=
  cbv beta iota zeta delta
    [setLockTargetState setLockTargetState_exclusive try_catch runExclusive
     finally postCmd sleep interleave updateToLatestStatus_call posted settled
     updateValue log emit lift bind ret throw exec outcome fst snd
     commandFor strict_eq HAP.SECURED HAP.UNSECURED Z.eqb Pos.eqb].

(** A failed dispatch is the [catch] block run where [postCmd] rejected,
    the mutex handed back. *)
Lemma dispatch_failure (cfg : Config) (env : DispatchEnv) (value : JsVal)
    (w : World) (e : Thrown) :
  value_is_valid value ->
  postResult env = Some e ->
  setLockTargetState cfg env value w
  = setLockTargetState_catch cfg e (release (posted cfg env value w)).
Proof.
  intros [-> | ->] Hfail; reduce_dispatch; rewrite Hfail; reflexivity.
Qed.

(** A successful dispatch, by client. *)
Lemma dispatch_success (cfg : Config) (env : DispatchEnv) (value : JsVal)
    (w : World) :
  value_is_valid value ->
  postResult env = None ->
  setLockTargetState cfg env value w
  = (Ok tt,
     match client w with
     | CandyClient =>
         release (exec (emit EGetMechStatus) (settled cfg env value w))
     | CognitoClient => release (posted cfg env value w)
     end).
Proof.
  intros Hvalid Hok.
  assert (Hclient : client (posted cfg env value w) = client w).
  { unfold posted. rewrite interleave_client. reflexivity. }
  revert Hclient.
  destruct Hvalid as [-> | ->]; reduce_dispatch; rewrite Hok;
    unfold isWebAPIMode; intros ->; destruct (client w); reflexivity.
Qed.

Lemma posted_trace (cfg : Config) (env : DispatchEnv) (value : JsVal)
    (w : World) :
  exists t1,
    trace (posted cfg env value w)
    = trace w
      ++ [ELog LInfo (MsgSendingRequest (deviceName cfg) (commandFor value));
          EAcquire;
          EUpdateValue LockTargetState value;
          EPostCmd (commandFor value) (configName cfg)]
      ++ t1
    /\ Forall callback_effect t1
    /\ (whilePosting env = [] -> t1 = []).
Proof.
  unfold posted.
  match goal with
  | |- context [fold_left _ _ ?W] =>
      destruct (interleave_trace cfg (whilePosting env) W)
        as (t1 & Ht1 & Hall1 & Hnil1)
  end.
  exists t1. repeat split; trivial.
  rewrite Ht1. unfold exec, log, emit, updateValue, lift, bind. cbn.
  rewrite <- !app_assoc. reflexivity.
Qed.

Lemma settled_trace (cfg : Config) (env : DispatchEnv) (value : JsVal)
    (w : World) :
  exists t2,
    trace (settled cfg env value w)
    = trace (posted cfg env value w) ++ [ESleep settle_ms] ++ t2
    /\ Forall callback_effect t2
    /\ (whileSleeping env = [] -> t2 = []).
Proof.
  unfold settled.
  match goal with
  | |- context [fold_left _ _ ?W] =>
      destruct (interleave_trace cfg (whileSleeping env) W)
        as (t2 & Ht2 & Hall2 & Hnil2)
  end.
  exists t2. repeat split; trivial.
  rewrite Ht2. unfold exec, emit, lift. cbn.
  rewrite <- app_assoc. reflexivity.
Qed.
(** The settling delay is 2500 ms, that is 2.5 s. *)
Lemma settle_ms_value : (settle_ms == 2500)%Q /\ (settle_ms / 1000 == 5 # 2)%Q.
Proof. split; reflexivity. Qed.

(** The rest of [updateToLatestStatus], run when the client answers:
    the answer goes to [setLockStatus]. *)
Lemma repoll_reconciles (cfg : Config) (w0 : World)
    (meanwhile : list Callback) (now : Z) (st : MechStatus) :
  let answered := fold_left (run_callback cfg) meanwhile w0 in
  let reconciled :=
    exec (updateToLatestStatus_resume cfg now (Some st)) answered in
  run_callback cfg answered (CbPolled now (Some st)) = reconciled
  /\ reconciled = exec (setLockStatus cfg now st) answered
  /\ (isInLockRange st <> isInUnlockRange st ->
      getLockState reconciled = derived st)
  /\ (isInLockRange st <> isInUnlockRange st ->
      getLockState answered <> derived st ->
      charValue LockCurrentState (chars reconciled) = derived st
      /\ charValue LockTargetState (chars reconciled) = derived st)
  /\ exec (updateToLatestStatus_resume cfg now None) answered = answered.
Proof.
  intros answered reconciled.
  split; [reflexivity|]. split; [reflexivity|]. split; [|split].
  - intros Hunamb.
    exact (setLockStatus_stores_derived cfg now st answered Hunamb).
  - intros Hunamb Hdiff.
    destruct (setLockStatus_publishes cfg now st answered Hunamb Hdiff)
      as (Hcur & Htar & _).
    split; [exact Hcur | exact Htar].
  - reflexivity.
Qed.

(** C5. In a call of [setLockTargetState] for a valid target whose
    [postCmd] resolves, the effects are, in this order: the log line, the
    mutex taken, the optimistic LockTargetState update, the command sent
    ([t1] is what callbacks did meanwhile); then, with the polling client
    ([CandyClient]), one sleep of exactly 2.5 s ([t2] is what callbacks did
    meanwhile), the call of [getMechStatus] that [updateToLatestStatus]
    starts with, and only then the release of the mutex; with the push
    client ([CognitoClient]), nothing but the release of the mutex -- no
    sleep and no call of [getMechStatus].

    With the polling client the poll so started ends in the
    reconciliation: when the client answers, whatever callbacks ran in
    between, the rest of [updateToLatestStatus] hands the answered status
    to [setLockStatus]; after a valid answer the stored lock state is the
    one the device reported, and where that differs from what was stored,
    LockCurrentState and LockTargetState are handed it as well; an absent
    answer changes nothing. *)
Theorem C5_repoll_after_settling_for_polling_client_only
    (cfg : Config) (env : DispatchEnv) (value : JsVal) (w : World) :
  value_is_valid value ->
  postResult env = None ->
  let w' := exec (setLockTargetState cfg env value) w in
  let sent :=
    [ELog LInfo (MsgSendingRequest (deviceName cfg) (commandFor value));
     EAcquire;
     EUpdateValue LockTargetState value;
     EPostCmd (commandFor value) (configName cfg)] in
  (settle_ms == 2500)%Q
  /\ (settle_ms / 1000 == 2.5)%Q
  /\ mutexLocked w' = false
  /\ (client w = CandyClient ->
      forall (meanwhile : list Callback) (now : Z) (st : MechStatus),
        let answered := fold_left (run_callback cfg) meanwhile w' in
        let reconciled :=
          exec (updateToLatestStatus_resume cfg now (Some st)) answered in
        run_callback cfg answered (CbPolled now (Some st)) = reconciled
        /\ reconciled = exec (setLockStatus cfg now st) answered
        /\ (isInLockRange st <> isInUnlockRange st ->
            getLockState reconciled = derived st)
        /\ (isInLockRange st <> isInUnlockRange st ->
            getLockState answered <> derived st ->
            charValue LockCurrentState (chars reconciled) = derived st
            /\ charValue LockTargetState (chars reconciled) = derived st)
        /\ exec (updateToLatestStatus_resume cfg now None) answered
           = answered)
  /\ exists t1 t2,
       Forall callback_effect t1 /\ Forall callback_effect t2
       /\ (whilePosting env = [] -> t1 = [])
       /\ (whileSleeping env = [] -> t2 = [])
       /\ match client w with
          | CandyClient =>
              trace w' = trace w ++ sent ++ t1 ++ [ESleep settle_ms] ++ t2
                                 ++ [EGetMechStatus; ERelease]
          | CognitoClient =>
              trace w' = trace w ++ sent ++ t1 ++ [ERelease]
          end.
Proof.
  intros Hvalid Hpost w' sent.
  do 2 (split; [reflexivity|]).
  split.
  { subst w'. unfold exec.
    rewrite (dispatch_success cfg env value w Hvalid Hpost). cbn [snd].
    destruct (client w); reflexivity. }
  split; [intros _; apply repoll_reconciles|].
  subst w' sent. unfold exec.
  rewrite (dispatch_success cfg env value w Hvalid Hpost). cbn [snd].
  destruct (posted_trace cfg env value w) as (t1 & Ht1 & Hall1 & Hnil1).
  destruct (settled_trace cfg env value w) as (t2 & Ht2 & Hall2 & Hnil2).
  exists t1, t2. repeat (split; [assumption|]).
  destruct (client w).
  - unfold release, exec, emit, lift. cbn. rewrite Ht2, Ht1.
    rewrite <- !app_assoc. reflexivity.
  - unfold release. cbn. rewrite Ht1. rewrite <- !app_assoc. reflexivity.
Qed.

Lemma C5_witness :
  let env := mkEnv None [] [] in
  (value_is_valid HAP.UNSECURED)
  /\ trace (exec (setLockTargetState example_cfg env HAP.UNSECURED)
                 example_world)
     = trace example_world
       ++ [ELog LInfo (MsgSendingRequest "Front door" unlock);
           EAcquire;
           EUpdateValue LockTargetState HAP.UNSECURED;
           EPostCmd unlock "Homebridge";
           ESleep settle_ms;
           EGetMechStatus;
           ERelease]
  /\ trace (exec (setLockTargetState example_push_cfg env HAP.UNSECURED)
                 example_push_world)
     = trace example_push_world
       ++ [ELog LInfo (MsgSendingRequest "Front door" unlock);
           EAcquire;
           EUpdateValue LockTargetState HAP.UNSECURED;
           EPostCmd unlock "Homebridge";
           ERelease]
  /\ client example_world = CandyClient
  /\ getLockState
       (exec (setLockTargetState example_cfg env HAP.UNSECURED) example_world)
     = HAP.SECURED
  /\ getLockState
       (exec (updateToLatestStatus_resume example_cfg 1700000003000
                (Some (mkStatus false true 40 false)))
          (fold_left (run_callback example_cfg) []
             (exec (setLockTargetState example_cfg env HAP.UNSECURED)
                example_world)))
     = derived (mkStatus false true 40 false).
Proof.
  intro env.
  assert (Hvalid : value_is_valid HAP.UNSECURED) by (right; reflexivity).
  assert (Hcandy : client example_world = CandyClient) by reflexivity.
  split; [exact Hvalid|]. split; [|split; [|split; [exact Hcandy|split]]].
  - destruct (C5_repoll_after_settling_for_polling_client_only
                example_cfg env HAP.UNSECURED example_world Hvalid eq_refl)
      as (_ & _ & _ & _ & t1 & t2 & _ & _ & Hnil1 & Hnil2 & Htrace).
    rewrite (Hnil1 eq_refl), (Hnil2 eq_refl) in Htrace. exact Htrace.
  - destruct (C5_repoll_after_settling_for_polling_client_only
                example_push_cfg env HAP.UNSECURED example_push_world
                Hvalid eq_refl)
      as (_ & _ & _ & _ & t1 & t2 & _ & _ & Hnil1 & _ & Htrace).
    rewrite (Hnil1 eq_refl) in Htrace. exact Htrace.
  - vm_compute. reflexivity.
  - destruct (C5_repoll_after_settling_for_polling_client_only
                example_cfg env HAP.UNSECURED example_world Hvalid eq_refl)
      as (_ & _ & _ & Hrepoll & _).
    destruct (Hrepoll Hcandy [] 1700000003000 (mkStatus false true 40 false))
      as (_ & _ & Hstored & _).
    apply Hstored. discriminate.
Defined.

(** C9. When [postCmd] rejects, the [catch] block starts from the
    accessory as it was when the rejection came in ([atFailure]) and changes
    one thing in it: the LockCurrentState characteristic, which becomes
    Jammed.  The context (lock state, battery, counters), every other
    characteristic, the history and the timers are as in [atFailure].  So
    LockTargetState keeps the value it had; when no callback ran while the
    command was in flight that is the optimistic value written before
    [postCmd], and the context is the one the call started with. *)
Theorem C9_failure_path_changes_LockCurrentState_only
    (cfg : Config) (env : DispatchEnv) (value : JsVal) (w : World)
    (e : Thrown) :
  value_is_valid value ->
  postResult env = Some e ->
  let atFailure := release (posted cfg env value w) in
  let w' := exec (setLockTargetState cfg env value) w in
  context w' = context atFailure
  /\ chars w' = setChar LockCurrentState HAP.JAMMED (chars atFailure)
  /\ (forall c, c <> LockCurrentState ->
                charValue c (chars w') = charValue c (chars atFailure))
  /\ hasSensor w' = hasSensor atFailure
  /\ historyService w' = historyService atFailure
  /\ timers w' = timers atFailure
  /\ (whilePosting env = [] ->
        charValue LockTargetState (chars w') = value
        /\ chars w'
           = setChar LockCurrentState HAP.JAMMED
               (setChar LockTargetState value (chars w))
        /\ context w' = context w
        /\ historyService w' = historyService w
        /\ timers w' = timers w).
Proof.
  intros Hvalid Hfail atFailure w'. subst w'. unfold exec.
  rewrite (dispatch_failure cfg env value w e Hvalid Hfail).
  fold atFailure.
  assert (Hcatch :
            snd (setLockTargetState_catch cfg e atFailure)
            = with_trace
                (trace (snd (setLockTargetState_catch cfg e atFailure)))
                (with_chars
                   (setChar LockCurrentState HAP.JAMMED (chars atFailure))
                   atFailure)).
  { destruct e; reflexivity. }
  rewrite Hcatch. cbn [context chars hasSensor historyService timers
                       with_trace with_chars].
  do 2 (split; [reflexivity|]).
  split; [intros c Hc; destruct c; try reflexivity; contradiction|].
  do 3 (split; [reflexivity|]).
  intros Hnone. subst atFailure. unfold posted. rewrite Hnone.
  repeat split.
Qed.

Lemma C9_witness :
  let env := mkEnv (Some NonError) [] [] in
  let w' := exec (setLockTargetState example_cfg env HAP.UNSECURED)
                 example_world in
  value_is_valid HAP.UNSECURED
  /\ postResult env = Some NonError
  /\ charValue LockTargetState (chars w') = HAP.UNSECURED
  /\ context w' = context example_world.
Proof.
  intros env w'.
  assert (Hvalid : value_is_valid HAP.UNSECURED) by (right; reflexivity).
  split; [exact Hvalid|]. split; [reflexivity|].
  destruct (C9_failure_path_changes_LockCurrentState_only example_cfg env
              HAP.UNSECURED example_world NonError Hvalid eq_refl)
    as (_ & _ & _ & _ & _ & _ & Hseq).
  destruct (Hseq eq_refl) as (Htarget & _ & Hctx & _).
  split; [exact Htarget | exact Hctx].
Defined.

(* ================================================================== *)
(** ** The stored lock state over the accessory's lifetime *)

Lemma strict_eq_number_l (z : Z) (v : JsVal) :
  strict_eq v (JNumber z) = true <-> v = JNumber z.
Proof.
  destruct v; cbn; split; intro H; try congruence.
  - apply Z.eqb_eq in H. congruence.
  - apply Z.eqb_eq. congruence.
Qed.

(** The constructor keeps a stored lock state and defaults a missing one
    to Secured. *)
Lemma new_Sesame3_lockState (cfg : Config) (now : Z) (fg : Fakegato)
    (acc : Accessory) :
  getLockState (new_Sesame3 cfg now fg acc)
  = nullish (lockState (accContext acc)) HAP.SECURED.
Proof.
  destruct acc as [[ls bl bc tio lr la] chs hs].
  run_model; reflexivity.
Qed.

Lemma dispatch_ignores_other_values (cfg : Config) (env : DispatchEnv)
    (value : JsVal) (w : World) :
  ~ value_is_valid value ->
  setLockTargetState cfg env value w = (Ok tt, w).
Proof.
  intros Hinvalid. unfold setLockTargetState.
  destruct (strict_eq value HAP.SECURED) eqn:Hs.
  { apply strict_eq_number_l in Hs. exfalso. apply Hinvalid. now left. }
  destruct (strict_eq value HAP.UNSECURED) eqn:Hu.
  { apply strict_eq_number_l in Hu. exfalso. apply Hinvalid. now right. }
  reflexivity.
Qed.

Lemma value_is_valid_dec (value : JsVal) :
  {value_is_valid value} + {~ value_is_valid value}.
Proof.
  unfold value_is_valid.
  destruct (strict_eq value HAP.SECURED) eqn:Hs.
  { left. left. now apply strict_eq_number_l. }
  destruct (strict_eq value HAP.UNSECURED) eqn:Hu.
  { left. right. now apply strict_eq_number_l. }
  right. intros [H | H]; subst value; [vm_compute in Hs | vm_compute in Hu];
    discriminate.
Qed.

Lemma posted_lock_ok (cfg : Config) (env : DispatchEnv) (value : JsVal)
    (w : World) :
  lock_ok w -> lock_ok (posted cfg env value w).
Proof. intros Hok. unfold posted. apply interleave_lock_ok. exact Hok. Qed.

Lemma settled_lock_ok (cfg : Config) (env : DispatchEnv) (value : JsVal)
    (w : World) :
  lock_ok w -> lock_ok (settled cfg env value w).
Proof.
  intros Hok. unfold settled. apply interleave_lock_ok.
  apply (posted_lock_ok cfg env value) in Hok. exact Hok.
Qed.

Lemma dispatch_lock_ok (cfg : Config) (env : DispatchEnv) (value : JsVal)
    (w : World) :
  lock_ok w -> lock_ok (exec (setLockTargetState cfg env value) w).
Proof.
  intros Hok. unfold exec.
  destruct (value_is_valid_dec value) as [Hvalid | Hinvalid].
  - destruct (postResult env) as [e|] eqn:Hpost.
    + rewrite (dispatch_failure cfg env value w e Hvalid Hpost).
      apply (posted_lock_ok cfg env value) in Hok.
      destruct e; exact Hok.
    + rewrite (dispatch_success cfg env value w Hvalid Hpost).
      destruct (client w).
      * apply (settled_lock_ok cfg env value) in Hok. exact Hok.
      * apply (posted_lock_ok cfg env value) in Hok. exact Hok.
  - rewrite (dispatch_ignores_other_values cfg env value w Hinvalid).
    exact Hok.
Qed.

Lemma step_lock_ok (s : System) (e : Event) :
  lock_ok (world s) -> lock_ok (world (step s e)).
Proof.
  intros Hok. destruct e as [cb | env value | cfg' now fg]; cbn [step world].
  - now apply callback_lock_ok.
  - now apply dispatch_lock_ok.
  - unfold lock_ok. rewrite new_Sesame3_lockState. cbn [accessory_of accContext].
    destruct Hok as [Hs | Hu]; unfold getLockState in *.
    + rewrite Hs. left. reflexivity.
    + rewrite Hu. right. reflexivity.
Qed.

Lemma run_lock_ok (es : list Event) (s : System) :
  lock_ok (world s) -> lock_ok (world (run s es)).
Proof.
  revert s. induction es as [|e es IH]; intros s Hok; cbn; [exact Hok|].
  apply IH. now apply step_lock_ok.
Qed.

(** C10. Take an accessory on which no lock state was persisted yet (a
    new one, or one cached before the class kept its state in the
    context).  From its first start on, after any sequence of status
    callbacks, heartbeats, counter resets, shutdown notifications, writes
    to LockTargetState (failed ones, which mark the lock jammed, included)
    and restarts on the persisted context, the lock state in the context
    -- which is what the read handler of LockCurrentState and
    LockTargetState returns -- is Secured or Unsecured, and so neither
    Jammed nor Unknown. *)
Theorem C10_stored_lock_state_is_secured_or_unsecured
    (cfg : Config) (now : Z) (fg : Fakegato)
    (bl bc tio lr la : JsVal) (chs : Chars) (hs : bool) (es : list Event) :
  let acc := mkAccessory (mkContext JUndefined bl bc tio lr la) chs hs in
  let w := world (run (boot cfg now fg acc) es) in
  lockState (context w) = getLockState w
  /\ (getLockState w = HAP.SECURED \/ getLockState w = HAP.UNSECURED)
  /\ getLockState w <> HAP.JAMMED
  /\ getLockState w <> HAP.UNKNOWN.
Proof.
  intros acc w.
  assert (Hok : lock_ok w).
  { apply run_lock_ok. unfold boot, lock_ok. cbn [world].
    rewrite new_Sesame3_lockState. left. reflexivity. }
  split; [reflexivity|]. split; [exact Hok|].
  destruct Hok as [H | H]; rewrite H; split; discriminate.
Qed.

(* ================================================================== *)
(** ** The history recorder *)

Lemma contactStateOf_detected (ls : JsVal) :
  contactStateOf ls = HAP.CONTACT_DETECTED <-> ls = HAP.SECURED.
Proof.
  unfold contactStateOf.
  destruct (strict_eq ls HAP.SECURED) eqn:Hs; split; intro H.
  - now apply strict_eq_number_l in Hs.
  - reflexivity.
  - discriminate.
  - subst ls. vm_compute in Hs. discriminate.
Qed.

(** C6, as stated, has the shutdown of the accessory cancel the pending
    heartbeat timer.  The accessory above has one pending; the shutdown
    handler leaves it pending. *)
Lemma C6_counterexample :
  ~ (forall (cfg : Config) (w : World),
        timers (run_callback cfg w CbShutdown) = []).
Proof.
  intro H. specialize (H example_cfg example_world).
  vm_compute in H. discriminate.
Qed.

(** C6, amended. With the history service set up, [updateHistory] appends
    one entry stamped with the current second whose status is derived from
    the stored lock state (contact detected exactly when Secured), whether
    or not that state has changed, touches neither the context nor the
    characteristics, and sets a timer of 10 minutes for its next run; a
    timer that comes due runs [updateHistory], so one timer stays pending.
    The shutdown handler calls the client's [shutdown()] and nothing else:
    the pending timer is neither cancelled nor released. *)
Theorem C6_heartbeat_appends_and_reschedules
    (cfg : Config) (now : Z) (w : World) (fg : Fakegato) :
  historyService w = Some fg ->
  let beat := mkEntry (seconds now) (contactStateOf (getLockState w)) in
  let w' := exec (updateHistory now) w in
  outcome (updateHistory now) w = Ok tt
  /\ historyService w'
     = Some (mkFakegato (initialTime fg) (entries fg ++ [beat]))
  /\ (status beat = HAP.CONTACT_DETECTED <-> getLockState w = HAP.SECURED)
  /\ context w' = context w
  /\ chars w' = chars w
  /\ timers w' = timers w ++ [heartbeat_ms]
  /\ heartbeat_ms = 600000
  /\ trace w' = trace w ++ [EAddEntry beat; ESetTimeout heartbeat_ms]
  /\ (forall t rest,
        timers w = t :: rest ->
        run_callback cfg w (CbTimer now)
        = exec (updateHistory now) (with_timers rest w)
        /\ timers (run_callback cfg w (CbTimer now)) = rest ++ [heartbeat_ms])
  /\ run_callback cfg w CbShutdown
     = with_trace (trace w ++ [EClientShutdown]) w
  /\ timers (run_callback cfg w CbShutdown) = timers w.
Proof.
  intros Hfg beat w'. subst beat w'.
  split; [| split; [| split; [apply contactStateOf_detected |]]].
  1, 2: open_world w; reduce_model; rewrite Hfg; reflexivity.
  open_world w. reduce_model. rewrite Hfg. reduce_model.
  do 4 (split; [reflexivity|]).
  split; [rewrite <- app_assoc; reflexivity|].
  split; [|split; reflexivity].
  intros t rest ->. split; reflexivity.
Qed.

Lemma C6_witness :
  let w' := exec (updateHistory 1700000600000) example_world in
  historyService example_world
  = Some (mkFakegato 1700000000 [mkEntry 1700000000 HAP.CONTACT_DETECTED])
  /\ historyService w'
     = Some (mkFakegato 1700000000
               [mkEntry 1700000000 HAP.CONTACT_DETECTED;
                mkEntry 1700000600 HAP.CONTACT_DETECTED])
  /\ timers (run_callback example_cfg example_world CbShutdown)
     = timers example_world.
Proof.
  intro w'.
  assert (Hfg : historyService example_world
                = Some (mkFakegato 1700000000
                          [mkEntry 1700000000 HAP.CONTACT_DETECTED]))
    by reflexivity.
  split; [exact Hfg|].
  destruct (C6_heartbeat_appends_and_reschedules example_cfg 1700000600000
              example_world _ Hfg)
    as (_ & Hentries & _ & _ & _ & _ & _ & _ & _ & _ & Hshutdown).
  split; [exact Hentries | exact Hshutdown].
Defined.

(** *** ResetTotal *)

Lemma epochOffset_value : epochOffset = 978307200.
Proof. reflexivity. Qed.

(** The fallback of the read handler: with no [lastReset] in the context,
    ResetTotal reads [getInitialTime()] less the offset of the 2001 epoch. *)
Lemma getResetTotal_fallback (w : World) (fg : Fakegato) :
  lastReset (context w) = JUndefined ->
  historyService w = Some fg ->
  outcome getResetTotal w = Ok (JNumber (initialTime fg - 978307200)).
Proof.
  intros Hundef Hfg. unfold outcome, getResetTotal, bind, read_context.
  rewrite Hundef. unfold getInitialTime, the_historyService, bind.
  rewrite Hfg. reflexivity.
Qed.

(** With anything else in [lastReset], ResetTotal reads that. *)
Lemma getResetTotal_stored (w : World) :
  lastReset (context w) <> JUndefined ->
  outcome getResetTotal w = Ok (lastReset (context w)).
Proof.
  intros Hdef. unfold outcome, getResetTotal, bind, read_context.
  destruct (lastReset (context w)); try reflexivity. contradiction.
Qed.

(** The constructor, with history on, leaves a number in [lastReset]: what
    was persisted, or 0.  The fallback above is out of reach from then on. *)
Lemma new_Sesame3_lastReset (id : option string) (name : string)
    (sname : option string) (uuid : string) (now : Z) (fg : Fakegato)
    (acc : Accessory) :
  lastReset (context (new_Sesame3 (mkConfig id name sname uuid (Some true))
                                  now fg acc))
  = nullish (lastReset (accContext acc)) (JNumber 0).
Proof.
  destruct acc as [[ls bl bc tio lr la] chs hs].
  unfold new_Sesame3, constructor. cbn [sesameHistory].
  run_model; reflexivity.
Qed.

(** C7. On a new accessory with history on, on which ResetTotal was never
    written, the context holds 0 in [lastReset] once the constructor has
    run, and the read handler of ResetTotal returns that 0; for the
    accessory of the examples, whose history started at 1700000000, the
    claimed [initialTime - epochOffset] would be 721692800. *)
Theorem C7_ResetTotal_of_a_new_accessory_reads_zero
    (id : option string) (name : string) (sname : option string)
    (uuid : string) (now : Z) (fg : Fakegato) :
  let w := new_Sesame3 (mkConfig id name sname uuid (Some true)) now fg
                       fresh_accessory in
  lastReset (context w) = JNumber 0
  /\ outcome getResetTotal w = Ok (JNumber 0)
  /\ outcome getResetTotal example_world = Ok (JNumber 0)
  /\ initialTime example_fakegato - epochOffset = 721692800.
Proof.
  intro w.
  assert (Hzero : lastReset (context w) = JNumber 0).
  { subst w. rewrite new_Sesame3_lastReset. reflexivity. }
  split; [exact Hzero|]. split; [|split; reflexivity].
  rewrite getResetTotal_stored; rewrite Hzero; [reflexivity | discriminate].
Qed.

(** *** Resetting the counter *)

Lemma quiet_callback_keeps (cfg : Config) (w : World) (cb : Callback) :
  quiet cb ->
  timesOpened (context (run_callback cfg w cb)) = timesOpened (context w).
Proof.
  intros Hq. open_world w.
  destruct cb as [now [[] [] p c] | now [[[] [] p c]|] | now | reset | ];
    cbn in Hq; try contradiction;
    try (destruct Hq as [Hq | Hq]; discriminate Hq).
  all: run_model; try reflexivity.
  all: match goal with
       | H : _ = true |- _ => vm_compute in H; discriminate H
       | H : _ = false |- _ => vm_compute in H; discriminate H
       end.
Qed.

Lemma quiet_callbacks_keep (cfg : Config) (cbs : list Callback) (w : World) :
  Forall quiet cbs ->
  timesOpened (context (fold_left (run_callback cfg) cbs w))
  = timesOpened (context w).
Proof.
  revert w. induction cbs as [|cb cbs IH]; intros w Hall; cbn; [reflexivity|].
  inversion Hall as [|? ? Hq Hrest]; subst.
  rewrite (IH _ Hrest). now apply quiet_callback_keeps.
Qed.

(** An open transition on the contact sensor adds one to the counter. *)
Lemma onContactChange_open (now : Z) (oldValue : JsVal) (w : World)
    (fg : Fakegato) :
  historyService w = Some fg ->
  strict_neq HAP.CONTACT_NOT_DETECTED oldValue = true ->
  timesOpened (context (exec (onContactChange now oldValue
                                HAP.CONTACT_NOT_DETECTED) w))
  = incr (timesOpened (context w)).
Proof.
  intros Hfg Hchange. open_world w. reduce_model. rewrite Hchange.
  change (truthy HAP.CONTACT_NOT_DETECTED) with true.
  run_model; reflexivity.
Qed.

(** An unlocked sample on a Secured lock whose contact sensor shows
    contact is such a transition. *)
Lemma setLockStatus_open (cfg : Config) (now : Z) (st : MechStatus)
    (w : World) (fg : Fakegato) :
  isInLockRange st = false -> isInUnlockRange st = true ->
  getLockState w = HAP.SECURED ->
  hasSensor w = true -> historyService w = Some fg ->
  charValue ContactSensorState (chars w) = HAP.CONTACT_DETECTED ->
  let w' := exec (setLockStatus cfg now st) w in
  timesOpened (context w') = incr (timesOpened (context w))
  /\ charValue TimesOpened (chars w') = incr (timesOpened (context w)).
Proof.
  intros Hl Hu Hs Hsensor Hfg Hcontact w'. subst w'. open_world w.
  reduce_model. subst. rewrite Hl, Hu. reduce_model.
  change (strict_eq HAP.UNSECURED HAP.SECURED) with false.
  reduce_model.
  change (strict_neq (contactStateOf HAP.UNSECURED) HAP.CONTACT_DETECTED)
    with true.
  change (truthy (contactStateOf HAP.UNSECURED)) with true.
  reduce_model. split; reflexivity.
Qed.

Lemma callback_hasSensor (cfg : Config) (w : World) (cb : Callback) :
  hasSensor (run_callback cfg w cb) = hasSensor w.
Proof.
  open_world w.
  destruct cb as [now st | now [st|] | now | reset | ]; run_model; reflexivity.
Qed.

Lemma callback_historyService (cfg : Config) (w : World) (cb : Callback)
    (fg : Fakegato) :
  historyService w = Some fg ->
  exists fg', historyService (run_callback cfg w cb) = Some fg'.
Proof.
  intros Hfg. open_world w.
  destruct cb as [now st | now [st|] | now | reset | ]; run_model; eauto.
Qed.

Lemma interleave_sensor_and_history (cfg : Config) (cbs : list Callback)
    (w : World) (fg : Fakegato) :
  hasSensor w = true ->
  historyService w = Some fg ->
  hasSensor (fold_left (run_callback cfg) cbs w) = true
  /\ exists fg', historyService (fold_left (run_callback cfg) cbs w) = Some fg'.
Proof.
  revert w fg. induction cbs as [|cb cbs IH]; intros w fg Hs Hfg; cbn.
  - split; eauto.
  - destruct (callback_historyService cfg w cb fg Hfg) as (fg1 & Hfg1).
    apply (IH _ fg1); [|exact Hfg1].
    rewrite callback_hasSensor. exact Hs.
Qed.

(** C8. A write of [T] to ResetTotal, on an accessory whose history is
    set up, leaves 0 in [timesOpened] and [T] in [lastReset], publishes
    the 0 on the TimesOpened characteristic at once, and touches neither
    [lastActivation] nor any entry of the history.  After it, and after
    any callbacks that neither open the lock nor reset again, the counter
    is still 0, and the next open transition -- the contact sensor
    changing to contact-not-detected, as an unlocked sample on a Secured
    lock makes it do -- takes it to exactly 1. *)
Theorem C8_reset_zeroes_the_counter
    (cfg : Config) (T : JsVal) (w : World) (fg : Fakegato) :
  hasSensor w = true ->
  historyService w = Some fg ->
  let w1 := run_callback cfg w (CbResetTotal T) in
  outcome (resetTotal T) w = Ok tt
  /\ w1 = exec (resetTotal T) w
  /\ getTimesOpened w1 = JNumber 0
  /\ lastReset (context w1) = T
  /\ charValue TimesOpened (chars w1) = JNumber 0
  /\ trace w1 = trace w ++ [EUpdateValue TimesOpened (JNumber 0);
                            ELog LDebug MsgResetTimesOpened;
                            ELog LDebug (MsgSetLastReset T)]
  /\ lastActivation (context w1) = lastActivation (context w)
  /\ historyService w1 = historyService w
  /\ forall cbs, Forall quiet cbs ->
       let w2 := fold_left (run_callback cfg) cbs w1 in
       getTimesOpened w2 = JNumber 0
       /\ (forall now oldValue,
             strict_neq HAP.CONTACT_NOT_DETECTED oldValue = true ->
             getTimesOpened
               (exec (onContactChange now oldValue HAP.CONTACT_NOT_DETECTED)
                     w2)
             = JNumber 1)
       /\ (forall now st,
             isInLockRange st = false -> isInUnlockRange st = true ->
             getLockState w2 = HAP.SECURED ->
             charValue ContactSensorState (chars w2) = HAP.CONTACT_DETECTED ->
             let w3 := exec (setLockStatus cfg now st) w2 in
             getTimesOpened w3 = JNumber 1
             /\ charValue TimesOpened (chars w3) = JNumber 1).
Proof.
  intros Hsensor Hfg w1.
  assert (Hw1 : w1 = exec (resetTotal T) w).
  { subst w1. unfold run_callback, exec, callback. rewrite Hfg. reflexivity. }
  assert (Hnow : outcome (resetTotal T) w = Ok tt
                 /\ getTimesOpened w1 = JNumber 0
                 /\ lastReset (context w1) = T
                 /\ charValue TimesOpened (chars w1) = JNumber 0
                 /\ trace w1 = trace w ++ [EUpdateValue TimesOpened (JNumber 0);
                                           ELog LDebug MsgResetTimesOpened;
                                           ELog LDebug (MsgSetLastReset T)]
                 /\ lastActivation (context w1) = lastActivation (context w)
                 /\ historyService w1 = historyService w
                 /\ hasSensor w1 = true).
  { rewrite Hw1. clear w1 Hw1. open_world w. reduce_model. subst.
    reduce_model. repeat split. rewrite <- !app_assoc. reflexivity. }
  destruct Hnow as (Hout & Hzero & Hreset & Hchar & Htrace & Hact & Hhist & Hs1).
  repeat (split; [assumption|]).
  intros cbs Hquiet w2.
  assert (Hzero2 : getTimesOpened w2 = JNumber 0).
  { subst w2. unfold getTimesOpened. rewrite quiet_callbacks_keep by exact Hquiet.
    exact Hzero. }
  assert (Hfg1 : historyService w1 = Some fg) by (now rewrite Hhist).
  destruct (interleave_sensor_and_history cfg cbs w1 fg Hs1 Hfg1)
    as (Hs2 & fg2 & Hfg2).
  fold w2 in Hs2, Hfg2.
  split; [exact Hzero2|]. split.
  - intros now oldValue Hchange. unfold getTimesOpened in *.
    rewrite (onContactChange_open now oldValue w2 fg2 Hfg2 Hchange).
    rewrite Hzero2. reflexivity.
  - intros now st Hl Hu Hsec Hcontact w3. unfold getTimesOpened in *.
    destruct (setLockStatus_open cfg now st w2 fg2 Hl Hu Hsec Hs2 Hfg2 Hcontact)
      as [Hctx Hch].
    subst w3. rewrite Hctx, Hch, Hzero2. split; reflexivity.
Qed.

Lemma C8_witness :
  hasSensor example_unlocked_world = true
  /\ historyService example_unlocked_world
     = Some (mkFakegato 1700000000
               [mkEntry 1700000000 HAP.CONTACT_DETECTED;
                mkEntry 1700000005 HAP.CONTACT_NOT_DETECTED])
  /\ getTimesOpened example_unlocked_world = JNumber 1
  /\ getTimesOpened
       (run_callback example_cfg example_unlocked_world
          (CbResetTotal (JNumber 700000000)))
     = JNumber 0
  /\ getTimesOpened
       (exec (setLockStatus example_cfg 1700000200000
                (mkStatus false true 39 false))
          (fold_left (run_callback example_cfg)
             [CbPush 1700000100000 (mkStatus true false 40 false)]
             (run_callback example_cfg example_unlocked_world
                (CbResetTotal (JNumber 700000000)))))
     = JNumber 1.
Proof.
  assert (Hsensor : hasSensor example_unlocked_world = true)
    by (vm_compute; reflexivity).
  assert (Hfg : historyService example_unlocked_world
                = Some (mkFakegato 1700000000
                          [mkEntry 1700000000 HAP.CONTACT_DETECTED;
                           mkEntry 1700000005 HAP.CONTACT_NOT_DETECTED]))
    by (vm_compute; reflexivity).
  destruct (C8_reset_zeroes_the_counter example_cfg (JNumber 700000000)
              example_unlocked_world _ Hsensor Hfg)
    as (_ & _ & Hzero & _ & _ & _ & _ & _ & Hnext).
  split; [exact Hsensor|]. split; [exact Hfg|].
  split; [vm_compute; reflexivity|]. split; [exact Hzero|].
  assert (Hquiet : Forall quiet
                     [CbPush 1700000100000 (mkStatus true false 40 false)]).
  { constructor; [left; reflexivity | constructor]. }
  destruct (Hnext _ Hquiet) as (_ & _ & Hopen).
  assert (Hsecured :
            getLockState
              (fold_left (run_callback example_cfg)
                 [CbPush 1700000100000 (mkStatus true false 40 false)]
                 (run_callback example_cfg example_unlocked_world
                    (CbResetTotal (JNumber 700000000))))
            = HAP.SECURED) by (vm_compute; reflexivity).
  assert (Hcontact :
            charValue ContactSensorState
              (chars
                 (fold_left (run_callback example_cfg)
                    [CbPush 1700000100000 (mkStatus true false 40 false)]
                    (run_callback example_cfg example_unlocked_world
                       (CbResetTotal (JNumber 700000000)))))
            = HAP.CONTACT_DETECTED) by (vm_compute; reflexivity).
  destruct (Hopen 1700000200000 (mkStatus false true 39 false)
              eq_refl eq_refl Hsecured Hcontact) as [Hone _].
  exact Hone.
Defined.

(* ================================================================== *)
(** ** What a dispatch keeps *)

Lemma posted_shape (cfg : Config) (env : DispatchEnv) (value : JsVal)
    (w : World) :
  posted cfg env value w
  = fold_left (run_callback cfg) (whilePosting env)
      (let w1 := with_trace
                   (trace w ++ [ELog LInfo (MsgSendingRequest (deviceName cfg)
                                              (commandFor value))]) w in
       let w2 := with_mutexLocked true w1 in
       let w3 := with_trace (trace w2 ++ [EAcquire]) w2 in
       let w4 := with_chars (setChar LockTargetState value (chars w3)) w3 in
       let w5 := with_trace
                   (trace w4 ++ [EUpdateValue LockTargetState value]) w4 in
       with_trace (trace w5 ++ [EPostCmd (commandFor value) (configName cfg)])
                  w5).
Proof. reflexivity. Qed.

Lemma catch_shape (cfg : Config) (e : Thrown) (w : World) :
  setLockTargetState_catch cfg e w
  = (Ok tt,
     with_trace (trace (exec (setLockTargetState_catch cfg e) w))
       (with_chars (setChar LockCurrentState HAP.JAMMED (chars w)) w)).
Proof. destruct e; reflexivity. Qed.

Lemma catch_trace (cfg : Config) (e : Thrown) (w : World) :
  exists logged,
    trace (exec (setLockTargetState_catch cfg e) w)
    = trace w ++ logged ++ [EUpdateValue LockCurrentState HAP.JAMMED]
    /\ Forall callback_effect logged.
Proof.
  destruct e as [message|].
  - exists [ELog LError (MsgErrorMessage (deviceName cfg) message);
            ELog LDebug (MsgThrown (ErrorObj message))].
    split; [|repeat constructor].
    unfold exec, setLockTargetState_catch, log, emit, updateValue, lift, bind.
    cbn. rewrite <- !app_assoc. reflexivity.
  - exists [ELog LDebug (MsgThrown NonError)].
    split; [|repeat constructor].
    unfold exec, setLockTargetState_catch, log, emit, updateValue, lift, bind,
      ret.
    cbn. rewrite <- !app_assoc. reflexivity.
Qed.

Section DispatchKeeps.

Variable cfg : Config.
Variable P : World -> Prop.

Hypothesis P_trace : forall w t, P w -> P (with_trace t w).
Hypothesis P_mutex : forall w b, P w -> P (with_mutexLocked b w).
Hypothesis P_target :
  forall w v, P w -> P (with_chars (setChar LockTargetState v (chars w)) w).
Hypothesis P_current :
  forall w v, P w -> P (with_chars (setChar LockCurrentState v (chars w)) w).
Hypothesis P_callback : forall w cb, P w -> P (run_callback cfg w cb).

Lemma interleave_keeps (cbs : list Callback) (w : World) :
  P w -> P (fold_left (run_callback cfg) cbs w).
Proof.
  revert w. induction cbs as [|cb cbs IH]; intros w Hw; cbn; auto.
Qed.

Lemma posted_keeps (env : DispatchEnv) (value : JsVal) (w : World) :
  P w -> P (posted cfg env value w).
Proof.
  intros Hw. rewrite posted_shape. apply interleave_keeps. cbv zeta.
  auto 10.
Qed.

Lemma settled_keeps (env : DispatchEnv) (value : JsVal) (w : World) :
  P w -> P (settled cfg env value w).
Proof.
  intros Hw. unfold settled. apply interleave_keeps.
  change (exec (emit (ESleep settle_ms)) (posted cfg env value w))
    with (with_trace (trace (posted cfg env value w) ++ [ESleep settle_ms])
                     (posted cfg env value w)).
  apply P_trace. now apply posted_keeps.
Qed.

Lemma release_keeps (w : World) : P w -> P (release w).
Proof. intros Hw. unfold release. auto. Qed.

Lemma dispatch_keeps (env : DispatchEnv) (value : JsVal) (w : World) :
  P w -> P (exec (setLockTargetState cfg env value) w).
Proof.
  intros Hw. unfold exec.
  destruct (value_is_valid_dec value) as [Hvalid | Hinvalid].
  - destruct (postResult env) as [e|] eqn:Hpost.
    + rewrite (dispatch_failure cfg env value w e Hvalid Hpost).
      rewrite catch_shape. cbn [snd].
      apply P_trace, P_current, release_keeps, posted_keeps, Hw.
    + rewrite (dispatch_success cfg env value w Hvalid Hpost). cbn [snd].
      destruct (client w); apply release_keeps.
      * change (exec (emit EGetMechStatus) (settled cfg env value w))
          with (with_trace (trace (settled cfg env value w) ++ [EGetMechStatus])
                           (settled cfg env value w)).
        apply P_trace, settled_keeps, Hw.
      * apply posted_keeps, Hw.
  - rewrite (dispatch_ignores_other_values cfg env value w Hinvalid).
    exact Hw.
Qed.

End DispatchKeeps.

(* ================================================================== *)
(** ** More on the command dispatcher *)

(** X1. A write to LockTargetState of anything but Secured or Unsecured
    (Jammed, Unknown, another number, a boolean, nothing) returns at the
    [switch]: no log line, no mutex, no update of a characteristic and no
    command to the client, whatever the client would have answered. *)
Theorem X1_unsupported_target_is_ignored
    (cfg : Config) (env : DispatchEnv) (value : JsVal) (w : World) :
  ~ value_is_valid value ->
  setLockTargetState cfg env value w = (Ok tt, w).
Proof. apply dispatch_ignores_other_values. Qed.

Lemma X1_witness :
  ~ value_is_valid HAP.JAMMED
  /\ setLockTargetState example_cfg (mkEnv (Some NonError) [] []) HAP.JAMMED
       example_world
     = (Ok tt, example_world).
Proof.
  assert (Hinvalid : ~ value_is_valid HAP.JAMMED)
    by (intros [H | H]; discriminate H).
  split; [exact Hinvalid|].
  apply (X1_unsupported_target_is_ignored example_cfg
           (mkEnv (Some NonError) [] []) HAP.JAMMED example_world Hinvalid).
Defined.

Lemma count_app (p : Effect -> bool) (a b : list Effect) :
  count p (a ++ b) = (count p a + count p b)%nat.
Proof. unfold count. now rewrite filter_app, length_app. Qed.

Lemma count_callback_effects (t : list Effect) :
  Forall callback_effect t ->
  count is_postCmd t = 0%nat /\ count is_acquire t = 0%nat
  /\ count is_release t = 0%nat.
Proof.
  induction 1 as [|e t He _ IH]; [repeat split|].
  destruct IH as (Hp & Ha & Hr).
  destruct e; try contradiction; cbn in *; auto.
Qed.

(** X2. A call of [setLockTargetState] for a valid target hands the
    command to the client exactly once and takes and releases the mutex
    exactly once -- whether [postCmd] resolves or rejects, with either
    client, and whatever callbacks run in between.  There is no retry, and
    the mutex is free when the call returns. *)
Theorem X2_one_command_one_acquire_one_release
    (cfg : Config) (env : DispatchEnv) (value : JsVal) (w : World) :
  value_is_valid value ->
  let w' := exec (setLockTargetState cfg env value) w in
  count is_postCmd (trace w') = S (count is_postCmd (trace w))
  /\ count is_acquire (trace w') = S (count is_acquire (trace w))
  /\ count is_release (trace w') = S (count is_release (trace w))
  /\ mutexLocked w' = false.
Proof.
  intros Hvalid w'. subst w'. unfold exec.
  destruct (posted_trace cfg env value w) as (t1 & Ht1 & Hall1 & _).
  destruct (settled_trace cfg env value w) as (t2 & Ht2 & Hall2 & _).
  destruct (count_callback_effects t1 Hall1) as (Hp1 & Ha1 & Hr1).
  destruct (count_callback_effects t2 Hall2) as (Hp2 & Ha2 & Hr2).
  destruct (postResult env) as [e|] eqn:Hpost.
  - rewrite (dispatch_failure cfg env value w e Hvalid Hpost).
    destruct (catch_trace cfg e (release (posted cfg env value w)))
      as (logged & Hlog & Hall).
    destruct (count_callback_effects logged Hall) as (Hp & Ha & Hr).
    unfold exec in Hlog. rewrite catch_shape in *. cbn [snd] in *.
    cbn [trace with_trace mutexLocked with_chars] in *.
    rewrite Hlog. unfold release at 1 2 3.
    cbn [trace with_trace mutexLocked with_mutexLocked].
    rewrite Ht1, !count_app, Hp, Ha, Hr, Hp1, Ha1, Hr1. cbn.
    repeat split; lia.
  - rewrite (dispatch_success cfg env value w Hvalid Hpost). cbn [snd].
    destruct (client w); unfold release, exec, emit, lift;
      cbn [snd trace with_trace mutexLocked with_mutexLocked].
    + rewrite Ht2, Ht1, !count_app, Hp1, Ha1, Hr1, Hp2, Ha2, Hr2. cbn.
      repeat split; lia.
    + rewrite Ht1, !count_app, Hp1, Ha1, Hr1. cbn.
      repeat split; lia.
Qed.

Lemma X2_witness :
  value_is_valid HAP.SECURED
  /\ count is_postCmd
       (trace (exec (setLockTargetState example_cfg
                       (mkEnv (Some NonError) [] []) HAP.SECURED)
                    example_world))
     = S (count is_postCmd (trace example_world)).
Proof.
  assert (Hvalid : value_is_valid HAP.SECURED) by (left; reflexivity).
  split; [exact Hvalid|].
  apply (X2_one_command_one_acquire_one_release example_cfg
           (mkEnv (Some NonError) [] []) HAP.SECURED example_world Hvalid).
Defined.

(** X3. When [postCmd] resolves and no callback runs meanwhile, the call
    changes the LockTargetState characteristic, to the requested value,
    and nothing else of the accessory but the trace: the context, the
    other characteristics, the history and the timers are as before.  In
    particular the stored lock state, which is what a read of
    LockTargetState or LockCurrentState returns, is still the old one: the
    optimistic value lives in the characteristic only, until a status
    sample confirms it. *)
Theorem X3_successful_dispatch_only_sets_the_target
    (cfg : Config) (env : DispatchEnv) (value : JsVal) (w : World) :
  value_is_valid value ->
  postResult env = None ->
  whilePosting env = [] ->
  whileSleeping env = [] ->
  let w' := exec (setLockTargetState cfg env value) w in
  outcome (setLockTargetState cfg env value) w = Ok tt
  /\ chars w' = setChar LockTargetState value (chars w)
  /\ context w' = context w
  /\ getLockState w' = getLockState w
  /\ historyService w' = historyService w
  /\ timers w' = timers w
  /\ hasSensor w' = hasSensor w.
Proof.
  intros Hvalid Hok Hnone1 Hnone2 w'. subst w'. unfold exec, outcome.
  rewrite (dispatch_success cfg env value w Hvalid Hok). cbn [fst snd].
  unfold settled, posted. rewrite Hnone1, Hnone2.
  destruct (client w); repeat split.
Qed.

Lemma X3_witness :
  let env := mkEnv None [] [] in
  let w' := exec (setLockTargetState example_cfg env HAP.UNSECURED)
                 example_world in
  value_is_valid HAP.UNSECURED
  /\ charValue LockTargetState (chars example_world) = JNumber 0
  /\ chars w' = setChar LockTargetState HAP.UNSECURED (chars example_world)
  /\ getLockState w' = HAP.SECURED.
Proof.
  intros env w'.
  assert (Hvalid : value_is_valid HAP.UNSECURED) by (right; reflexivity).
  split; [exact Hvalid|]. split; [reflexivity|].
  destruct (X3_successful_dispatch_only_sets_the_target example_cfg env
              HAP.UNSECURED example_world Hvalid eq_refl eq_refl eq_refl)
    as (_ & Hchars & _ & Hlock & _).
  split; [exact Hchars|]. exact (eq_trans Hlock eq_refl).
Defined.

Lemma setLockStatus_ambiguous (cfg : Config) (now : Z) (st : MechStatus)
    (w : World) :
  isInLockRange st = isInUnlockRange st ->
  setLockStatus cfg now st w = (Ok tt, w).
Proof.
  intros Hamb. unfold setLockStatus. rewrite Hamb, Bool.eqb_reflx.
  reflexivity.
Qed.

(** X4. After a failed dispatch has marked the lock jammed, a status
    sample that is ambiguous or repeats the stored lock state leaves
    LockCurrentState at Jammed; the mark goes away only with a valid sample
    whose lock state differs from the stored one, which sets
    LockCurrentState and LockTargetState to that state. *)
Theorem X4_jammed_until_the_lock_state_changes
    (cfg : Config) (env : DispatchEnv) (value : JsVal) (w : World)
    (e : Thrown) (now : Z) (st : MechStatus) :
  value_is_valid value ->
  postResult env = Some e ->
  let jammed := exec (setLockTargetState cfg env value) w in
  let w' := exec (setLockStatus cfg now st) jammed in
  (isInLockRange st = isInUnlockRange st \/ getLockState jammed = derived st ->
   charValue LockCurrentState (chars w') = HAP.JAMMED)
  /\ (isInLockRange st <> isInUnlockRange st ->
      getLockState jammed <> derived st ->
      charValue LockCurrentState (chars w') = derived st
      /\ charValue LockTargetState (chars w') = derived st
      /\ getLockState w' = derived st).
Proof.
  intros Hvalid Hfail jammed w'. split.
  - intros Hsame.
    assert (Hnoop : setLockStatus cfg now st jammed = (Ok tt, jammed)).
    { destruct Hsame as [Hamb | Hsame].
      - now apply setLockStatus_ambiguous.
      - now apply setLockStatus_same_state. }
    subst w'. unfold exec at 1. rewrite Hnoop. cbn [snd].
    subst jammed. unfold exec.
    rewrite (dispatch_failure cfg env value w e Hvalid Hfail).
    rewrite catch_shape. reflexivity.
  - intros Hunamb Hdiff.
    exact (setLockStatus_publishes cfg now st jammed Hunamb Hdiff).
Qed.

Lemma X4_witness :
  let env := mkEnv (Some NonError) [] [] in
  let locked := mkStatus true false 80 false in
  value_is_valid HAP.UNSECURED
  /\ charValue LockCurrentState
       (chars (exec (setLockStatus example_cfg 1700000009000 locked)
                 (exec (setLockTargetState example_cfg env HAP.UNSECURED)
                    example_world)))
     = HAP.JAMMED.
Proof.
  intros env locked.
  assert (Hvalid : value_is_valid HAP.UNSECURED) by (right; reflexivity).
  split; [exact Hvalid|].
  destruct (X4_jammed_until_the_lock_state_changes example_cfg env
              HAP.UNSECURED example_world NonError 1700000009000 locked
              Hvalid eq_refl) as [Hstays _].
  apply Hstays. right. vm_compute. reflexivity.
Defined.

(* ================================================================== *)
(** ** Invariants over the accessory's lifetime *)

Lemma callback_mirrors (cfg : Config) (w : World) (cb : Callback) :
  mirrors w -> mirrors (run_callback cfg w cb).
Proof.
  unfold mirrors. intros [Hs Hm]. open_world w. reduce_model. subst.
  destruct cb as [now st | now [st|] | now | reset | ]; run_model;
    split; reflexivity.
Qed.

Lemma new_Sesame3_mirrors (cfg : Config) (now : Z) (fg : Fakegato)
    (w : World) :
  lock_ok w -> mirrors w ->
  mirrors (new_Sesame3 cfg now fg (accessory_of w)).
Proof.
  unfold lock_ok, mirrors. intros Hok [Hs Hm]. open_world w.
  reduce_model. subst.
  destruct Hok as [-> | ->]; run_model; split; reflexivity.
Qed.

Lemma step_mirrors (s : System) (e : Event) :
  lock_ok (world s) /\ mirrors (world s) ->
  lock_ok (world (step s e)) /\ mirrors (world (step s e)).
Proof.
  intros [Hok Hm]. split; [now apply step_lock_ok|].
  destruct e as [cb | env value | cfg' now fg]; cbn [step world].
  - now apply callback_mirrors.
  - apply dispatch_keeps; trivial.
    + intros w cb. apply callback_mirrors.
  - now apply new_Sesame3_mirrors.
Qed.

Lemma run_mirrors (es : list Event) (s : System) :
  lock_ok (world s) /\ mirrors (world s) ->
  lock_ok (world (run s es)) /\ mirrors (world (run s es)).
Proof.
  revert s. induction es as [|e es IH]; intros s H; cbn; [exact H|].
  apply IH. now apply step_mirrors.
Qed.

(** X5. On an accessory that was new when it was first started with
    history on, the contact sensor exists and its ContactSensorState shows
    the stored lock state (contact detected for Secured, not detected
    otherwise) at every moment of the accessory's life: after any status
    callbacks, heartbeats, resets, dispatches and restarts, with history
    left on or turned off. *)
Theorem X5_contact_sensor_mirrors_the_lock_state
    (id : option string) (name : string) (sname : option string)
    (uuid : string) (now : Z) (fg : Fakegato) (es : list Event) :
  let cfg := mkConfig id name sname uuid (Some true) in
  let w := world (run (boot cfg now fg fresh_accessory) es) in
  hasSensor w = true
  /\ charValue ContactSensorState (chars w) = contactStateOf (getLockState w).
Proof.
  intros cfg w.
  apply (run_mirrors es (boot cfg now fg fresh_accessory)).
  split.
  - unfold boot, lock_ok. cbn [world]. rewrite new_Sesame3_lockState.
    left. reflexivity.
  - unfold boot, mirrors. cbn [world]. split; reflexivity.
Qed.

Lemma callback_heartbeat_ok (cfg : Config) (w : World) (cb : Callback) :
  heartbeat_ok w -> heartbeat_ok (run_callback cfg w cb).
Proof.
  unfold heartbeat_ok. intros H. open_world w. reduce_model.
  match goal with
  | hs : option Fakegato, ts : list Z |- _ =>
      destruct hs; destruct ts as [|t [|t' rest]]; cbn in H;
        try discriminate H
  end.
  all: destruct cb as [now st | now [st|] | now | reset | ]; run_model;
    reflexivity.
Qed.

Lemma new_Sesame3_heartbeat_ok (cfg : Config) (now : Z) (fg : Fakegato)
    (acc : Accessory) :
  heartbeat_ok (new_Sesame3 cfg now fg acc).
Proof.
  destruct acc as [[ls bl bc tio lr la] chs hs]. unfold heartbeat_ok.
  run_model; reflexivity.
Qed.

Lemma step_heartbeat_ok (s : System) (e : Event) :
  heartbeat_ok (world s) -> heartbeat_ok (world (step s e)).
Proof.
  intros H. destruct e as [cb | env value | cfg' now fg]; cbn [step world].
  - now apply callback_heartbeat_ok.
  - apply dispatch_keeps; trivial.
    intros w cb. apply callback_heartbeat_ok.
  - apply new_Sesame3_heartbeat_ok.
Qed.

Lemma run_heartbeat_ok (es : list Event) (s : System) :
  heartbeat_ok (world s) -> heartbeat_ok (world (run s es)).
Proof.
  revert s. induction es as [|e es IH]; intros s H; cbn; [exact H|].
  apply IH. now apply step_heartbeat_ok.
Qed.

(** X6. However an accessory is started and whatever happens to it
    afterwards, exactly one heartbeat timer is pending while the history
    service is set up, and none while it is not: timers do not pile up
    (a heartbeat that fires leaves one successor) and do not die out. *)
Theorem X6_one_heartbeat_timer_pending
    (cfg : Config) (now : Z) (fg : Fakegato) (acc : Accessory)
    (es : list Event) :
  let w := world (run (boot cfg now fg acc) es) in
  List.length (timers w)
  = match historyService w with Some _ => 1%nat | None => 0%nat end.
Proof.
  intro w.
  assert (H : heartbeat_ok w).
  { apply run_heartbeat_ok. apply new_Sesame3_heartbeat_ok. }
  unfold heartbeat_ok in H.
  destruct (historyService w); [exact H | now rewrite H].
Qed.

Lemma new_Sesame3_client (cfg : Config) (now : Z) (fg : Fakegato)
    (acc : Accessory) :
  client (new_Sesame3 cfg now fg acc) = selectClient cfg.
Proof.
  destruct acc as [[ls bl bc tio lr la] chs hs].
  run_model; reflexivity.
Qed.

Lemma step_client (s : System) (e : Event) :
  client (world s) = selectClient (config s) ->
  client (world (step s e)) = selectClient (config (step s e)).
Proof.
  intros H. destruct e as [cb | env value | cfg' now fg];
    cbn [step world config].
  - now rewrite callback_client.
  - apply (dispatch_keeps (config s)
             (fun w => client w = selectClient (config s))); trivial.
    intros w cb Hw. now rewrite callback_client.
  - apply new_Sesame3_client.
Qed.

Lemma run_client (es : list Event) (s : System) :
  client (world s) = selectClient (config s) ->
  client (world (run s es)) = selectClient (config (run s es)).
Proof.
  revert s. induction es as [|e es IH]; intros s H; cbn; [exact H|].
  apply IH. now apply step_client.
Qed.

(** X7. The client is chosen by the constructor and never replaced while
    the process runs: at every moment it is the push client exactly when
    the configuration the process was started with has a non-empty
    [clientID], and the polling client -- the one a dispatch re-polls for
    -- when [clientID] is missing or empty. *)
Theorem X7_client_is_fixed_by_the_configuration
    (cfg : Config) (now : Z) (fg : Fakegato) (acc : Accessory)
    (es : list Event) :
  let s := run (boot cfg now fg acc) es in
  client (world s) = selectClient (config s)
  /\ (isWebAPIMode (world s) = true
      <-> clientID (config s) = None \/ clientID (config s) = Some ""%string)
  /\ (client (world s) = CognitoClient
      <-> exists id, clientID (config s) = Some id /\ id <> ""%string).
Proof.
  intro s.
  assert (H : client (world s) = selectClient (config s)).
  { apply run_client. apply new_Sesame3_client. }
  split; [exact H|].
  unfold isWebAPIMode. rewrite H. unfold selectClient.
  destruct (clientID (config s)) as [id|].
  - destruct (String.eqb_spec id ""%string) as [-> | Hne]; split; split.
    + intros _. now right.
    + reflexivity.
    + discriminate.
    + intros (id' & Hid & Hne). congruence.
    + discriminate.
    + intros [Hn | Hs]; [discriminate | congruence].
    + intros _. now exists id.
    + reflexivity.
  - split; split.
    + intros _. now left.
    + reflexivity.
    + discriminate.
    + intros (id' & Hid & _). discriminate.
Qed.

(* ================================================================== *)
(** ** More on the history recorder *)

(** X8. The listener of ContactSensorState does nothing for an event
    whose new value is the old one.  For any other event, closing as well
    as opening, it stamps [lastActivation] with the current second,
    appends one entry with that second and the new value to the history,
    and publishes on LastActivation the seconds since the history's
    initial time, or 0 if that would be negative. *)
Theorem X8_every_change_is_stamped_and_recorded
    (w : World) (fg : Fakegato) (c : Change) :
  historyService w = Some fg ->
  hasSensor w = true ->
  let w' := deliver w c in
  let second := seconds (changeAt c) in
  (changes c = false -> w' = w)
  /\ (changes c = true ->
      outcome (onContactChange (changeAt c) (changeOld c) (changeNew c)) w
      = Ok tt
      /\ lastActivation (context w') = JNumber second
      /\ historyService w'
         = Some (mkFakegato (initialTime fg)
                   (entries fg ++ [mkEntry second (changeNew c)]))
      /\ charValue LastActivation (chars w')
         = JNumber (Z.max 0 (second - initialTime fg))
      /\ getLockState w' = getLockState w).
Proof.
  intros Hfg Hs w' second. subst w' second. destruct c as [at_ms old new].
  unfold deliver, changes. cbn [changeAt changeOld changeNew].
  open_world w. reduce_model. subst. split; intros Hc; rewrite Hc.
  - reflexivity.
  - run_model; repeat split.
Qed.

Lemma X8_witness :
  let closing := mkChange 1700000300499 HAP.CONTACT_NOT_DETECTED
                          HAP.CONTACT_DETECTED in
  hasSensor example_unlocked_world = true
  /\ changes closing = true
  /\ lastActivation (context (deliver example_unlocked_world closing))
     = JNumber 1700000300.
Proof.
  intro closing.
  assert (Hsensor : hasSensor example_unlocked_world = true)
    by (vm_compute; reflexivity).
  assert (Hfg : historyService example_unlocked_world
                = Some (mkFakegato 1700000000
                          [mkEntry 1700000000 HAP.CONTACT_DETECTED;
                           mkEntry 1700000005 HAP.CONTACT_NOT_DETECTED]))
    by (vm_compute; reflexivity).
  split; [exact Hsensor|]. split; [reflexivity|].
  destruct (X8_every_change_is_stamped_and_recorded example_unlocked_world _
              closing Hfg Hsensor) as [_ Hchange].
  destruct (Hchange eq_refl) as (_ & Hstamp & _).
  exact Hstamp.
Defined.

Lemma deliver_counts (w : World) (fg : Fakegato) (n : Z) (c : Change) :
  historyService w = Some fg ->
  timesOpened (context w) = JNumber n ->
  exists fg',
    historyService (deliver w c) = Some fg'
    /\ List.length (entries fg')
       = (List.length (entries fg) + (if changes c then 1 else 0))%nat
    /\ timesOpened (context (deliver w c))
       = JNumber (n + (if opens c then 1 else 0)).
Proof.
  intros Hfg Hn. destruct c as [at_ms old new].
  unfold deliver, opens, changes. cbn [changeAt changeOld changeNew].
  open_world w. reduce_model. subst.
  destruct (strict_neq new old); cbn [andb];
    [destruct (truthy new)|]; run_model;
    eexists; (split; [reflexivity|]); cbn [entries];
    rewrite ?length_app, ?Z.add_0_r, ?Nat.add_0_r; split; reflexivity.
Qed.

(** X9. Starting from a count [n], after any sequence of change events
    [timesOpened] is [n] plus the number of events that changed the value
    to a truthy one (contact not detected), and the history has grown by
    one entry for each event that changed the value at all. *)
Theorem X9_timesOpened_counts_the_openings
    (cs : list Change) (w : World) (fg : Fakegato) (n : Z) :
  historyService w = Some fg ->
  timesOpened (context w) = JNumber n ->
  let w' := fold_left deliver cs w in
  timesOpened (context w')
  = JNumber (n + Z.of_nat (List.length (filter opens cs)))
  /\ exists fg',
       historyService w' = Some fg'
       /\ List.length (entries fg')
          = (List.length (entries fg)
             + List.length (filter changes cs))%nat.
Proof.
  revert w fg n. induction cs as [|c cs IH]; intros w fg n Hfg Hn; cbn.
  - rewrite Z.add_0_r, Nat.add_0_r. split; [exact Hn | now exists fg].
  - destruct (deliver_counts w fg n c Hfg Hn) as (fg1 & Hfg1 & Hlen1 & Hn1).
    destruct (IH (deliver w c) fg1 _ Hfg1 Hn1) as (Hn2 & fg2 & Hfg2 & Hlen2).
    split.
    + rewrite Hn2. f_equal. destruct (opens c); cbn [List.length]; lia.
    + exists fg2. split; [exact Hfg2|]. rewrite Hlen2, Hlen1.
      destruct (changes c); cbn [List.length]; lia.
Qed.

Lemma X9_witness :
  let cs := [mkChange 1700000100000 HAP.CONTACT_NOT_DETECTED
                      HAP.CONTACT_DETECTED;
             mkChange 1700000200000 HAP.CONTACT_DETECTED
                      HAP.CONTACT_NOT_DETECTED;
             mkChange 1700000300000 HAP.CONTACT_NOT_DETECTED
                      HAP.CONTACT_NOT_DETECTED] in
  timesOpened (context example_unlocked_world) = JNumber 1
  /\ timesOpened (context (fold_left deliver cs example_unlocked_world))
     = JNumber 2.
Proof.
  intro cs.
  assert (Hfg : historyService example_unlocked_world
                = Some (mkFakegato 1700000000
                          [mkEntry 1700000000 HAP.CONTACT_DETECTED;
                           mkEntry 1700000005 HAP.CONTACT_NOT_DETECTED]))
    by (vm_compute; reflexivity).
  assert (Hn : timesOpened (context example_unlocked_world) = JNumber 1)
    by (vm_compute; reflexivity).
  split; [exact Hn|].
  destruct (X9_timesOpened_counts_the_openings cs example_unlocked_world _ 1
              Hfg Hn) as [Hcount _].
  exact Hcount.
Defined.

Lemma callback_extends (cfg : Config) (t0 : Z) (es0 : list HistoryEntry)
    (w : World) (cb : Callback) :
  extends t0 es0 w -> extends t0 es0 (run_callback cfg w cb).
Proof.
  unfold extends. intros [later H]. open_world w. reduce_model. subst.
  destruct cb as [now st | now [st|] | now | reset | ]; run_model;
    cbn [initialTime entries];
    first [ exists later; reflexivity
          | rewrite <- !app_assoc; eexists; reflexivity ].
Qed.

Lemma step_extends (t0 : Z) (es0 : list HistoryEntry) (s : System)
    (e : Event) :
  is_restart e = false ->
  extends t0 es0 (world s) -> extends t0 es0 (world (step s e)).
Proof.
  intros Hno H. destruct e as [cb | env value | cfg' now fg];
    cbn [step world]; [| |discriminate Hno].
  - now apply callback_extends.
  - apply dispatch_keeps; trivial.
    intros w cb. apply callback_extends.
Qed.

(** X10. While the process runs, the history only grows: after any
    status callbacks, heartbeats, resets, shutdown notifications and
    dispatches, the entries the history service held before are still
    there, in the same order, followed by the new ones, and its initial
    time is the same.  Nothing rewrites or drops an entry. *)
Theorem X10_history_is_append_only
    (es : list Event) (s : System) (fg : Fakegato) :
  Forall (fun e => is_restart e = false) es ->
  historyService (world s) = Some fg ->
  exists later,
    historyService (world (run s es))
    = Some (mkFakegato (initialTime fg) (entries fg ++ later)).
Proof.
  intros Hno Hfg.
  assert (H : extends (initialTime fg) (entries fg) (world s)).
  { exists []. rewrite app_nil_r, Hfg. now destruct fg. }
  clear Hfg. revert s H.
  induction es as [|e es IH]; intros s H; cbn; [exact H|].
  inversion Hno as [|? ? He Hrest]; subst.
  apply (IH Hrest). now apply step_extends.
Qed.

Lemma X10_witness :
  let es := [EvCallback (CbPush 1700000100000 (mkStatus true false 40 false));
             EvSetTarget (mkEnv (Some NonError) [] []) HAP.UNSECURED;
             EvCallback (CbTimer 1700000600000);
             EvCallback (CbResetTotal (JNumber 700000000))] in
  historyService example_unlocked_world
  = Some (mkFakegato 1700000000
            [mkEntry 1700000000 HAP.CONTACT_DETECTED;
             mkEntry 1700000005 HAP.CONTACT_NOT_DETECTED])
  /\ exists later,
       historyService
         (world (run (mkSystem example_cfg example_unlocked_world) es))
       = Some (mkFakegato 1700000000
                 ([mkEntry 1700000000 HAP.CONTACT_DETECTED;
                   mkEntry 1700000005 HAP.CONTACT_NOT_DETECTED] ++ later)).
Proof.
  intro es.
  assert (Hfg : historyService example_unlocked_world
                = Some (mkFakegato 1700000000
                          [mkEntry 1700000000 HAP.CONTACT_DETECTED;
                           mkEntry 1700000005 HAP.CONTACT_NOT_DETECTED]))
    by (vm_compute; reflexivity).
  split; [exact Hfg|].
  assert (Hno : Forall (fun e => is_restart e = false) es)
    by (repeat constructor).
  exact (X10_history_is_append_only es
           (mkSystem example_cfg example_unlocked_world)
           (mkFakegato 1700000000
              [mkEntry 1700000000 HAP.CONTACT_DETECTED;
               mkEntry 1700000005 HAP.CONTACT_NOT_DETECTED])
           Hno Hfg).
Defined.

Lemma nullish_defined (v d : JsVal) : v <> JUndefined -> nullish v d = v.
Proof. destruct v; [contradiction | reflexivity ..]. Qed.

(** X11. A restart with history on keeps what was persisted: when the
    lock state, battery level, battery-critical flag, open count and reset
    marker are all present in the context, the constructor leaves the
    context and the cached characteristics exactly as they were, sets up
    the history service, writes one heartbeat entry for the persisted lock
    state and leaves one timer pending. *)
Theorem X11_restart_with_history_keeps_the_context
    (cfg : Config) (now : Z) (fg : Fakegato) (w : World) :
  sesameHistory cfg = Some true ->
  lockState (context w) <> JUndefined ->
  batteryLevel (context w) <> JUndefined ->
  batteryCritical (context w) <> JUndefined ->
  timesOpened (context w) <> JUndefined ->
  lastReset (context w) <> JUndefined ->
  let w' := new_Sesame3 cfg now fg (accessory_of w) in
  context w' = context w
  /\ chars w' = chars w
  /\ hasSensor w' = true
  /\ historyService w'
     = Some (mkFakegato (initialTime fg)
               (entries fg
                ++ [mkEntry (seconds now) (contactStateOf (getLockState w))]))
  /\ timers w' = [heartbeat_ms].
Proof.
  intros Hhist Hls Hbl Hbc Htio Hlr w'. subst w'. open_world w.
  reduce_model. rewrite Hhist. reduce_model.
  rewrite !nullish_defined by assumption. repeat split.
Qed.

Lemma X11_witness :
  sesameHistory example_cfg = Some true
  /\ context (new_Sesame3 example_cfg 1700003600000 example_fakegato
                (accessory_of example_unlocked_world))
     = context example_unlocked_world.
Proof.
  split; [reflexivity|].
  apply (X11_restart_with_history_keeps_the_context example_cfg
           1700003600000 example_fakegato example_unlocked_world eq_refl);
    vm_compute; discriminate.
Defined.

(** X12. A start with history off (the flag missing or false) drops what
    the history features had persisted: whatever the cached context holds,
    battery level and battery-critical flag are back at 100 and false and
    the open count and the reset marker are removed, while the lock state
    is kept (Secured if there was none) and [lastActivation] is left as it
    was.  No history service is created, no entry is written and no
    heartbeat timer is set. *)
Theorem X12_start_without_history_discards_the_counters
    (cfg : Config) (now : Z) (fg : Fakegato) (acc : Accessory) :
  sesameHistory cfg <> Some true ->
  let w' := new_Sesame3 cfg now fg acc in
  context w'
  = mkContext (nullish (lockState (accContext acc)) HAP.SECURED)
              (JNumber 100) (JBool false) JUndefined JUndefined
              (lastActivation (accContext acc))
  /\ chars w' = accChars acc
  /\ hasSensor w' = accHasSensor acc
  /\ historyService w' = None
  /\ timers w' = []
  /\ count (fun e => match e with EAddEntry _ => true | _ => false end)
           (trace w') = 0%nat.
Proof.
  intros Hoff w'. subst w'.
  destruct acc as [[ls bl bc tio lr la] chs hs].
  destruct (sesameHistory cfg) as [[|]|] eqn:Hhist; [contradiction | |];
    reduce_model; rewrite Hhist; repeat split.
Qed.

Lemma X12_witness :
  let cfg := mkConfig None "Homebridge" None "0a1b2c3d" (Some false) in
  sesameHistory cfg <> Some true
  /\ context (new_Sesame3 cfg 1700003600000 example_fakegato
                (accessory_of example_unlocked_world))
     = mkContext HAP.UNSECURED (JNumber 100) (JBool false) JUndefined
                 JUndefined (JNumber 1700000005).
Proof.
  intro cfg.
  assert (Hoff : sesameHistory cfg <> Some true) by discriminate.
  split; [exact Hoff|].
  destruct (X12_start_without_history_discards_the_counters cfg
              1700003600000 example_fakegato
              (accessory_of example_unlocked_world) Hoff) as [Hctx _].
  exact (eq_trans Hctx eq_refl).
Defined.

(** X13. Reading LastActivation returns 0 as long as no activation was
    recorded.  Once a change event was recorded (at a second other than
    0), a read returns what the listener published on the characteristic
    at that moment: the seconds between the history's initial time and
    the event, or 0 for an event before the initial time -- never a
    negative number. *)
Theorem X13_LastActivation_read_is_what_was_published
    (w : World) (fg : Fakegato) (c : Change) :
  historyService w = Some fg ->
  hasSensor w = true ->
  changes c = true ->
  seconds (changeAt c) <> 0 ->
  let w' := deliver w c in
  let v := Z.max 0 (seconds (changeAt c) - initialTime fg) in
  (lastActivation (context w) = JUndefined ->
   outcome getLastActivation w = Ok (JNumber 0))
  /\ outcome getLastActivation w' = Ok (JNumber v)
  /\ charValue LastActivation (chars w') = JNumber v
  /\ 0 <= v.
Proof.
  intros Hfg Hs Hc Hne w' v. subst w' v. destruct c as [at_ms old new].
  unfold deliver, changes, getLastActivation in *.
  cbn [changeAt changeOld changeNew] in *.
  apply Z.eqb_neq in Hne.
  open_world w. reduce_model. subst. rewrite Hc.
  split; [intros ->; reflexivity|].
  split; [|split; [|apply Z.le_max_l]].
  - run_model; try reflexivity; exfalso;
      match goal with
      | H : truthy (JNumber _) = false |- _ =>
          cbn [truthy] in H; rewrite Hne in H; discriminate H
      end.
  - run_model; reflexivity.
Qed.

Lemma X13_witness :
  let closing := mkChange 1700000300499 HAP.CONTACT_NOT_DETECTED
                          HAP.CONTACT_DETECTED in
  hasSensor example_unlocked_world = true
  /\ changes closing = true
  /\ seconds (changeAt closing) <> 0
  /\ outcome getLastActivation (deliver example_unlocked_world closing)
     = Ok (JNumber 300).
Proof.
  intro closing.
  assert (Hsensor : hasSensor example_unlocked_world = true)
    by (vm_compute; reflexivity).
  assert (Hfg : historyService example_unlocked_world
                = Some (mkFakegato 1700000000
                          [mkEntry 1700000000 HAP.CONTACT_DETECTED;
                           mkEntry 1700000005 HAP.CONTACT_NOT_DETECTED]))
    by (vm_compute; reflexivity).
  assert (Hne : seconds (changeAt closing) <> 0) by discriminate.
  split; [exact Hsensor|]. split; [reflexivity|]. split; [exact Hne|].
  destruct (X13_LastActivation_read_is_what_was_published
              example_unlocked_world _ closing Hfg Hsensor eq_refl Hne)
    as (_ & Hread & _).
  exact Hread.
Defined.

(** X14. In this version a write to ResetTotal reads back: after [T]
    was written, and until the next write, a read of ResetTotal returns
    [T] -- 0 included -- and a read of TimesOpened returns 0. *)
Theorem X14_ResetTotal_reads_back_what_was_written
    (cfg : Config) (T : JsVal) (w : World) (fg : Fakegato) :
  historyService w = Some fg ->
  T <> JUndefined ->
  let w1 := run_callback cfg w (CbResetTotal T) in
  outcome getResetTotal w1 = Ok T
  /\ getTimesOpened w1 = JNumber 0.
Proof.
  intros Hfg HT w1.
  assert (Hstored : lastReset (context w1) = T /\ getTimesOpened w1 = JNumber 0).
  { subst w1. open_world w. reduce_model. subst. run_model; split; reflexivity. }
  destruct Hstored as [Hreset Hzero]. split; [|exact Hzero].
  rewrite getResetTotal_stored; rewrite Hreset; [reflexivity | exact HT].
Qed.

Lemma X14_witness :
  JNumber 0 <> JUndefined
  /\ outcome getResetTotal
       (run_callback example_cfg example_unlocked_world
          (CbResetTotal (JNumber 0)))
     = Ok (JNumber 0).
Proof.
  assert (HT : JNumber 0 <> JUndefined) by discriminate.
  assert (Hfg : historyService example_unlocked_world
                = Some (mkFakegato 1700000000
                          [mkEntry 1700000000 HAP.CONTACT_DETECTED;
                           mkEntry 1700000005 HAP.CONTACT_NOT_DETECTED]))
    by (vm_compute; reflexivity).
  split; [exact HT|].
  apply (X14_ResetTotal_reads_back_what_was_written example_cfg (JNumber 0)
           example_unlocked_world _ Hfg HT).
Defined.

(** X15. In the earlier version of the class, which tested the stored
    marker with [||], ResetTotal read as the history's initial time less
    978307200 (the seconds from 1970 to 2001) as long as it had not been
    written -- and also after 0 had been written to it; any other number
    written read back as itself. *)
Theorem X15_earlier_ResetTotal_falls_back_on_zero
    (T : Z) (w : World) (fg : Fakegato) :
  historyService w = Some fg ->
  let fallback := JNumber (initialTime fg - 978307200) in
  let w1 := exec (Earlier.resetTotal (JNumber T)) w in
  (lastReset (context w) = JUndefined ->
   outcome Earlier.getResetTotal w = Ok fallback)
  /\ outcome Earlier.getResetTotal w1
     = Ok (if T =? 0 then fallback else JNumber T)
  /\ lastReset Earlier.initial_fields = JUndefined.
Proof.
  intros Hfg fallback w1. subst fallback w1.
  unfold Earlier.getResetTotal, Earlier.resetTotal, Earlier.initial_fields.
  destruct w as [[ls bl bc tio lr la] chs hs h cl ts mx tr].
  reduce_model. subst.
  split; [intros ->; reflexivity|]. split; [|reflexivity].
  destruct hs; reduce_model;
    change (truthy (JNumber T)) with (negb (T =? 0));
    destruct (T =? 0); reflexivity.
Qed.

Lemma X15_witness :
  historyService example_world
  = Some (mkFakegato 1700000000 [mkEntry 1700000000 HAP.CONTACT_DETECTED])
  /\ outcome Earlier.getResetTotal
       (exec (Earlier.resetTotal (JNumber 0)) example_world)
     = Ok (JNumber 721692800).
Proof.
  assert (Hfg : historyService example_world
                = Some (mkFakegato 1700000000
                          [mkEntry 1700000000 HAP.CONTACT_DETECTED]))
    by (vm_compute; reflexivity).
  split; [exact Hfg|].
  destruct (X15_earlier_ResetTotal_falls_back_on_zero 0 example_world _ Hfg)
    as (_ & Hread & _).
  exact Hread.
Defined.

(* ================================================================== *)
(** ** The platform *)

Import Platform.

Lemma find_none_existsb {A : Type} (p : A -> bool) (l : list A) :
  find p l = None <-> existsb p l = false.
Proof.
  induction l as [|a l IH]; cbn; [tauto|].
  destruct (p a); cbn; [split; discriminate | exact IH].
Qed.

Section PlatformFacts.

Variable generate : string -> string.

Lemma find_in_config (ls : list SesameLock) (a : PlatformAccessory) :
  find (fun sesame => String.eqb (generate (uuid sesame)) (UUID a)) ls = None
  <-> configured generate ls a = false.
Proof.
  rewrite find_none_existsb. unfold configured, made_for.
  assert (Hext : forall l,
             existsb (fun sesame => String.eqb (generate (uuid sesame)) (UUID a)) l
             = existsb (fun sesame => String.eqb (UUID a) (generate (uuid sesame))) l).
  { induction l as [|x l IH]; cbn; [reflexivity|].
    now rewrite IH, String.eqb_sym. }
  now rewrite Hext.
Qed.

Lemma configure_all (cached : list PlatformAccessory) (s : State) :
  fold_left (fun s a => configureAccessory generate a s) cached s
  = mkState (locks s)
      (accessories s ++ filter (configured generate (locks s)) cached)
      (handlers s
       ++ map Remove (filter (fun a => negb (configured generate (locks s) a)) cached))
      (actions s
       ++ map (fun a => Log (LoadingFromCache (displayName a))) cached).
Proof.
  revert s. induction cached as [|a cached IH]; intro s; cbn [fold_left].
  - cbn. rewrite !app_nil_r. now destruct s.
  - rewrite IH. unfold configureAccessory. cbn [filter map].
    destruct (find _ _) as [l|] eqn:Hfind.
    + assert (Hc : configured generate (locks s) a = true).
      { destruct (configured generate (locks s) a) eqn:Hc; [reflexivity|].
        apply find_in_config in Hc. cbn [locks do] in Hfind. congruence. }
      cbn [locks accessories handlers actions push do]. rewrite Hc.
      cbn [negb]. rewrite <- !app_assoc. reflexivity.
    + apply find_in_config in Hfind. cbn [locks do] in Hfind.
      cbn [locks accessories handlers actions on_didFinishLaunching do].
      rewrite Hfind. cbn [negb map]. rewrite <- !app_assoc. reflexivity.
Qed.

Lemma initialize_loop (ls : list SesameLock) (s : State) :
  fold_left
    (fun s sesame =>
       let uuid' := generate (uuid sesame) in
       let existingAccessory :=
         find (fun accessory => String.eqb (UUID accessory) uuid')
              (accessories s) in
       match existingAccessory with
       | Some existingAccessory =>
           do [Log (RestoringFromCache (displayName existingAccessory));
               NewSesame3 existingAccessory sesame] s
       | None =>
           let name' :=
             match name sesame with Some n => n | None => uuid sesame end in
           let accessory := mkPlatformAccessory name' uuid' in
           do [Log (AddingNew (uuid sesame));
               NewSesame3 accessory sesame;
               Register accessory] s
       end)
    ls s
  = mkState (locks s) (accessories s) (handlers s)
      (actions s ++ flat_map (for_lock generate (accessories s)) ls).
Proof.
  revert s. induction ls as [|l ls IH]; intro s; cbn [fold_left flat_map].
  - rewrite app_nil_r. now destruct s.
  - rewrite IH. unfold for_lock at 2, made_for, new_accessory. cbv zeta.
    destruct (find _ (accessories s)); cbn [locks accessories handlers actions do];
      rewrite <- !app_assoc; reflexivity.
Qed.

Lemma remove_all (rs : list PlatformAccessory) (s : State) :
  fold_left (run_handler generate) (map Remove rs) s
  = mkState (locks s) (accessories s) (handlers s)
      (actions s
       ++ flat_map (fun a => [Log (RemovingFromCache (displayName a));
                              Unregister a]) rs).
Proof.
  revert s. induction rs as [|a rs IH]; intro s; cbn [fold_left map flat_map].
  - rewrite app_nil_r. now destruct s.
  - rewrite IH. cbn [run_handler locks accessories handlers actions do].
    rewrite <- !app_assoc. reflexivity.
Qed.

End PlatformFacts.

Lemma constructed_app (a b : list Action) :
  constructed (a ++ b) = constructed a ++ constructed b.
Proof. apply flat_map_app. Qed.

Lemma registered_app (a b : list Action) :
  registered (a ++ b) = registered a ++ registered b.
Proof. apply flat_map_app. Qed.

Lemma unregistered_app (a b : list Action) :
  unregistered (a ++ b) = unregistered a ++ unregistered b.
Proof. apply flat_map_app. Qed.

Lemma loading_is_silent (cached : list PlatformAccessory) :
  let acts := map (fun a => Log (LoadingFromCache (displayName a))) cached in
  constructed acts = [] /\ registered acts = [] /\ unregistered acts = [].
Proof. induction cached as [|a cached IH]; cbn; auto. Qed.

Lemma removing_unregisters (rs : list PlatformAccessory) :
  let acts := flat_map (fun a => [Log (RemovingFromCache (displayName a));
                                  Unregister a]) rs in
  constructed acts = [] /\ registered acts = [] /\ unregistered acts = rs.
Proof.
  induction rs as [|a rs (Hc & Hr & Hu)]; cbn [flat_map]; [cbn; auto|].
  cbv zeta in *.
  rewrite constructed_app, registered_app, unregistered_app, Hc, Hr, Hu.
  repeat split.
Qed.

Lemma initializing_constructs (generate : string -> string)
    (known : list PlatformAccessory) (ls : list SesameLock) :
  let acts := flat_map (for_lock generate known) ls in
  map snd (constructed acts) = ls
  /\ Forall (fun p => UUID (fst p) = generate (uuid (snd p))) (constructed acts)
  /\ registered acts
     = map (new_accessory generate)
           (filter (fun l => negb (cached_for generate known l)) ls)
  /\ unregistered acts = [].
Proof.
  induction ls as [|l ls (Hs & Hu & Hr & Hn)]; cbn [flat_map filter map].
  - repeat split. constructor.
  - rewrite constructed_app, registered_app, unregistered_app, map_app,
      Hs, Hr, Hn.
    unfold for_lock, cached_for.
    destruct (find (made_for generate l) known) as [a|] eqn:Hfind.
    + apply find_some in Hfind. destruct Hfind as [Hin Hmade].
      assert (Hex : existsb (made_for generate l) known = true).
      { apply existsb_exists. now exists a. }
      rewrite Hex. cbn. repeat split.
      constructor; [|exact Hu]. cbn. now apply String.eqb_eq.
    + apply find_none_existsb in Hfind. rewrite Hfind. cbn. repeat split.
      constructor; [reflexivity | exact Hu].
Qed.

(** A lock of the configuration has an accessory among the cached ones
    that were kept exactly when it has one in the cache. *)
Lemma kept_for_lock (generate : string -> string)
    (ls : list SesameLock) (cached : list PlatformAccessory)
    (l : SesameLock) :
  In l ls ->
  cached_for generate (filter (configured generate ls) cached) l
  = cached_for generate cached l.
Proof.
  intros Hin. unfold cached_for.
  induction cached as [|a cached IH]; cbn; [reflexivity|].
  destruct (configured generate ls a) eqn:Hc; cbn.
  - now rewrite IH.
  - rewrite IH. destruct (made_for generate l a) eqn:Hm; [|reflexivity].
    exfalso. unfold configured in Hc.
    assert (Hex : existsb (fun sesame => made_for generate sesame a) ls = true).
    { apply existsb_exists. now exists l. }
    congruence.
Qed.

(** X16. With a configuration that has the four required keys, a launch
    creates exactly one accessory object per configured lock, in the order
    of the configuration, each on an accessory whose UUID is the one
    generated from the lock's uuid.  The accessories it registers with the
    bridge are the new ones, made for the locks that had no accessory in
    the cache; the accessories it removes from the bridge are the cached
    ones that no configured lock was made for. *)
Theorem X16_launch_serves_every_configured_lock
    (generate : string -> string) (config : PlatformConfig)
    (cached : list PlatformAccessory) :
  verifyConfig config = true ->
  let acts := actions (launch generate config cached) in
  map snd (constructed acts) = configLocks config
  /\ Forall (fun p => UUID (fst p) = generate (uuid (snd p)))
            (constructed acts)
  /\ registered acts
     = map (new_accessory generate)
           (filter (fun l => negb (cached_for generate cached l))
                   (configLocks config))
  /\ unregistered acts
     = filter (fun a => negb (configured generate (configLocks config) a))
              cached.
Proof.
  intros Hvalid acts. subst acts.
  unfold launch, new_OpenSesame. rewrite Hvalid. cbv zeta. cbn [negb].
  rewrite configure_all. cbn [locks accessories handlers actions].
  change ([] ++ filter (configured generate (configLocks config)) cached)
    with (filter (configured generate (configLocks config)) cached).
  change ([Initialize]
          ++ map Remove
               (filter (fun a => negb (configured generate (configLocks config) a))
                       cached))
    with (Initialize
          :: map Remove
               (filter (fun a => negb (configured generate (configLocks config) a))
                       cached)).
  cbn [fold_left run_handler]. unfold initializeSesameLocks.
  rewrite initialize_loop. cbn [locks accessories handlers actions do].
  rewrite remove_all. cbn [locks accessories handlers actions].
  set (ls := configLocks config).
  set (kept := filter (configured generate ls) cached).
  set (removed := filter (fun a => negb (configured generate ls a)) cached).
  destruct (loading_is_silent cached) as (Hc1 & Hr1 & Hu1).
  destruct (initializing_constructs generate kept ls) as (Hs2 & Hf2 & Hr2 & Hu2).
  destruct (removing_unregisters removed) as (Hc3 & Hr3 & Hu3).
  cbv zeta in *.
  rewrite !constructed_app, !registered_app, !unregistered_app.
  rewrite Hc1, Hr1, Hu1, Hc3, Hr3, Hu3, Hr2, Hu2. cbn [app constructed
    registered unregistered flat_map]. rewrite ?app_nil_r.
  repeat split; trivial.
  f_equal. apply filter_ext_in. intros l Hin. f_equal.
  apply kept_for_lock. exact Hin.
Qed.

Lemma X16_witness :
  let generate := fun s => ("hap-" ++ s)%string in
  let config :=
    mkPlatformConfig
      ["platform"; "name"; "apiKey"; "clientID"; "locks"; "updateInterval"]%string
      [mkLock "a" (Some "Front door"%string); mkLock "b" None] in
  let cached := [mkPlatformAccessory "Front door" "hap-a";
                 mkPlatformAccessory "Garage" "hap-z"] in
  let acts := actions (launch generate config cached) in
  verifyConfig config = true
  /\ map snd (constructed acts) = configLocks config
  /\ registered acts = [mkPlatformAccessory "b" "hap-b"]
  /\ unregistered acts = [mkPlatformAccessory "Garage" "hap-z"].
Proof.
  intros generate config cached acts.
  assert (Hvalid : verifyConfig config = true) by reflexivity.
  split; [exact Hvalid|].
  destruct (X16_launch_serves_every_configured_lock generate config cached
              Hvalid) as (Hlocks & _ & Hreg & Hunreg).
  split; [exact Hlocks|].
  split; [exact (eq_trans Hreg eq_refl) | exact (eq_trans Hunreg eq_refl)].
Defined.

(** X17. With a configuration that lacks one of the keys [apiKey],
    [clientID], [locks], [updateInterval], the platform takes the list of
    locks to be empty: a launch creates no accessory object and registers
    nothing, and every accessory of the cache is removed from the bridge
    -- also the ones made for locks the configuration does list. *)
Theorem X17_incomplete_configuration_removes_every_cached_accessory
    (generate : string -> string) (config : PlatformConfig)
    (cached : list PlatformAccessory) :
  verifyConfig config = false ->
  let acts := actions (launch generate config cached) in
  constructed acts = []
  /\ registered acts = []
  /\ unregistered acts = cached.
Proof.
  intros Hinvalid acts. subst acts.
  unfold launch, new_OpenSesame. rewrite Hinvalid. cbv zeta. cbn [negb].
  rewrite configure_all. cbn [locks accessories handlers actions].
  change ([] ++ map Remove
                  (filter (fun a => negb (configured generate [] a)) cached))
    with (map Remove
            (filter (fun a => negb (configured generate [] a)) cached)).
  assert (Hnone : filter (fun a => negb (configured generate [] a)) cached
                  = cached).
  { induction cached as [|a cached IH]; cbn [filter]; [reflexivity|].
    change (configured generate [] a) with false. cbn [negb].
    now rewrite IH. }
  rewrite Hnone, remove_all. cbn [locks accessories handlers actions].
  destruct (loading_is_silent cached) as (Hc1 & Hr1 & Hu1).
  destruct (removing_unregisters cached) as (Hc3 & Hr3 & Hu3).
  cbv zeta in *.
  rewrite !constructed_app, !registered_app, !unregistered_app.
  rewrite Hc1, Hr1, Hu1, Hc3, Hr3, Hu3. repeat split.
Qed.

Lemma X17_witness :
  let generate := fun s => ("hap-" ++ s)%string in
  let config :=
    mkPlatformConfig
      ["platform"; "name"; "apiKey"; "clientID"; "locks"]%string
      [mkLock "a" (Some "Front door"%string)] in
  let cached := [mkPlatformAccessory "Front door" "hap-a"] in
  verifyConfig config = false
  /\ unregistered (actions (launch generate config cached)) = cached.
Proof.
  intros generate config cached.
  assert (Hinvalid : verifyConfig config = false) by reflexivity.
  split; [exact Hinvalid|].
  destruct (X17_incomplete_configuration_removes_every_cached_accessory
              generate config cached Hinvalid) as (_ & _ & Hunreg).
  exact Hunreg.
Defined.

(* ================================================================== *)
(** ** The first version of the class *)

Lemma update_keeps_timers (w : World) (fetched : Oldest.Sesame2Shadow + Thrown) :
  timers (Oldest.run_update w fetched) = timers w.
Proof. destruct fetched; reflexivity. Qed.

Lemma updates_keep_timers (waiting : list (Oldest.Sesame2Shadow + Thrown))
    (w : World) :
  timers (fold_left Oldest.run_update waiting w) = timers w.
Proof.
  revert w. induction waiting as [|f waiting IH]; intro w; cbn; [reflexivity|].
  rewrite IH. apply update_keeps_timers.
Qed.

(** X18. In the first version a failed command is rolled back instead
    of being marked jammed: when [postCmd] rejects, the call returns
    normally, sets no timer for a status update, frees the mutex, and
    writes to both LockCurrentState and LockTargetState the lock state
    that was stored when the call began.  That is the state of the call's
    beginning even when status updates that held the mutex in the meantime
    have stored another one. *)
Theorem X18_first_version_rolls_back_a_failed_command
    (actor : string) (waiting : list (Oldest.Sesame2Shadow + Thrown))
    (e : Thrown) (value : JsVal) (w : World) :
  value_is_valid value ->
  let w' := exec (Oldest.setLockTargetState actor waiting (Some e) value) w in
  outcome (Oldest.setLockTargetState actor waiting (Some e) value) w = Ok tt
  /\ charValue LockCurrentState (chars w') = getLockState w
  /\ charValue LockTargetState (chars w') = getLockState w
  /\ getLockState w' = getLockState (fold_left Oldest.run_update waiting w)
  /\ timers w' = timers w
  /\ mutexLocked w' = false.
Proof.
  intros Hvalid w'. subst w'.
  pose proof (updates_keep_timers waiting w) as Htimers.
  unfold exec, outcome, Oldest.setLockTargetState.
  destruct Hvalid as [-> | ->];
    unfold try_catch, runExclusive, finally, bind, lift, emit, log,
      updateValue, throw, ret; cbn; repeat split; exact Htimers.
Qed.

Lemma X18_witness :
  let w := with_context Earlier.initial_fields example_world in
  let waiting := [inl (Oldest.mkShadow "unlocked" 50)] in
  let w' := exec (Oldest.setLockTargetState "Homebridge" waiting
                    (Some NonError) HAP.SECURED) w in
  value_is_valid HAP.SECURED
  /\ getLockState w = HAP.SECURED
  /\ charValue LockCurrentState (chars w') = HAP.SECURED
  /\ getLockState w' = HAP.UNSECURED.
Proof.
  intros w waiting w'.
  assert (Hvalid : value_is_valid HAP.SECURED) by (left; reflexivity).
  split; [exact Hvalid|]. split; [reflexivity|].
  destruct (X18_first_version_rolls_back_a_failed_command "Homebridge"
              waiting NonError HAP.SECURED w Hvalid)
    as (_ & Hcurrent & _ & Hstored & _).
  split; [exact Hcurrent | exact (eq_trans Hstored eq_refl)].
Defined.

(** X19. In the first version a status update stores Secured for the
    status [locked], Unsecured for [unlocked] and Unknown for anything
    else.  With the mutex held it asks the client for the shadow and hands
    three values to [updateValue], and no other: the stored lock state to
    LockCurrentState, the reported percentage to BatteryLevel, and to
    StatusLowBattery the boolean that is true exactly when the percentage
    is below 20, which is also what the read handler of StatusLowBattery
    returns; LockTargetState is handed nothing.  Then it frees the mutex.
    When the fetch fails, nothing but the trace changes, nothing is handed
    to a characteristic, and the mutex is freed all the same. *)
Theorem X19_first_version_status_update
    (shadow : Oldest.Sesame2Shadow) (e : Thrown) (w : World) :
  let w' := Oldest.run_update w (inl shadow) in
  let failed := Oldest.run_update w (inr e) in
  (getLockState w' = HAP.SECURED <-> Oldest.CHSesame2Status shadow = "locked"%string)
  /\ (getLockState w' = HAP.UNSECURED
      <-> Oldest.CHSesame2Status shadow = "unlocked"%string)
  /\ (getLockState w' = HAP.UNKNOWN
      <-> Oldest.CHSesame2Status shadow <> "locked"%string
          /\ Oldest.CHSesame2Status shadow <> "unlocked"%string)
  /\ trace w'
     = trace w
       ++ [EAcquire;
           EGetMechStatus;
           EUpdateValue LockCurrentState (getLockState w');
           EUpdateValue BatteryLevel (JNumber (Oldest.shadowBattery shadow));
           EUpdateValue StatusLowBattery
             (JBool (Oldest.shadowBattery shadow <? 20));
           ERelease]
  /\ charValue LockTargetState (chars w') = charValue LockTargetState (chars w)
  /\ getBatteryLevel w' = JNumber (Oldest.shadowBattery shadow)
  /\ Oldest.getStatusLowBattery w' = JBool (Oldest.shadowBattery shadow <? 20)
  /\ mutexLocked w' = false
  /\ context failed = context w
  /\ chars failed = chars w
  /\ mutexLocked failed = false
  /\ trace failed = trace w ++ [EAcquire; EGetMechStatus; ERelease].
Proof.
  intros w' failed. subst w' failed.
  destruct shadow as [status battery]. open_world w.
  unfold Oldest.run_update, Oldest.updateStatus, Oldest.getStatusLowBattery,
    Oldest.less_than.
  cbn [Oldest.CHSesame2Status Oldest.shadowBattery].
  reduce_model. cbn [to_number].
  destruct (String.eqb_spec status "locked") as [Hl | Hl];
    [|destruct (String.eqb_spec status "unlocked") as [Hu | Hu]];
    reduce_model; rewrite <- ?app_assoc; cbn [app];
    repeat split; try reflexivity; try discriminate; try congruence;
    try (intros [? ?]; congruence); try (subst status; discriminate).
Qed.
